(** * sql-validator: the submit pipeline of [static/main.js]

    A shallow embedding of the browser script that drives the upload form:
    the fingerprint of the form, the duplicate guard, the static validation
    request and its rendering, the detached AI request and the patching of
    the rendered cards.

    Conventions of the embedding.
    - A JavaScript string is a [string] holding its UTF-8 bytes; the three
      sentinel glyphs are complete code points, so [startsWith] on the bytes
      agrees with [startsWith] on well-formed UTF-16 text.
    - [file.size] and [file.lastModified] are integers (the File API gives
      [unsigned long long] and [long long]); in the range where JavaScript
      prints a Number as plain decimal digits, [ToString] is stdpp's
      [pretty].
    - The script builds markup and assigns it through [innerHTML], so the
      browser's parser decides the tree.  Text that is [markupFree] becomes
      one text node with that text, and then the tree is the one the
      template literals denote; that is the only case in which the
      embedding gives the cards of a report.  When a query or a message
      holds markup the children of [#card-container] are kept abstract
      ([ParserDecides]), and what the patch loop does on them is taken from
      the browser ([Browser]).  Markup is parsed, never run: scripts and
      event handlers it could carry are outside the embedding.
    - The script is run to completion task by task, as the event loop does:
      the part of the submit handler before its first [await], the part
      after it, and the two callbacks of the AI promise are separate
      functions on the page state.
    - The callbacks handed to [requestAnimationFrame] only set the opacity
      of the element they fade in, at a later frame; they are left out, and
      an element keeps the opacity its task gave it.

    [static/main.js] holds the handler in two revisions; the embedding
    follows the later one, with the guard, the AI request and the class
    [ai-msg]. *)

From Stdlib Require Import Ascii.
From stdpp Require Import strings list pretty.

Open Scope string_scope.

(** ** Strings and numbers *)

(** [v.startsWith(searchString)] *)
Definition startsWith (v searchString : string) : bool :=
  String.prefix searchString v.

(** [s.includes(c)] for a single character. *)
Fixpoint includes (s : string) (c : ascii) : bool :=
  match s with
  | EmptyString => false
  | String a s' => if decide (a = c) then true else includes s' c
  end.

(** The values that occur in the fingerprint array. *)
Inductive value :=
  | VString (s : string)
  | VNumber (z : Z).

Definition ToString (v : value) : string :=
  match v with
  | VString s => s
  | VNumber z => pretty z
  end.

(** [array.join(sep)] *)
Definition join (xs : list value) (sep : string) : string :=
  String.concat sep (ToString <$> xs).

(** ** The form *)

Record File := {
  file_name : string;
  file_size : N;
  file_lastModified : Z;
}.

(** The live values the handler reads from the form controls. *)
Record FormSnapshot := {
  name : string;
  email : string;
  team : string;
  cr_number : string;
  files : list File;              (* fileInput.files *)
}.

(** The seven entries of the array literal, [file] being [files[0]]. *)
Definition components (form : FormSnapshot) : list value :=
  let file := head (files form) in
  [ VString (name form);
    VString (email form);
    VString (team form);
    VString (cr_number form);
    match file with Some f => VString (file_name f) | None => VString "" end;
    match file with Some f => VNumber (Z.of_N (file_size f)) | None => VString "" end;
    match file with Some f => VNumber (file_lastModified f) | None => VString "" end ].

Definition separator : string := "|".

Definition currentFingerprint (form : FormSnapshot) : string :=
  join (components form) separator.

(** ** Server responses *)

Record Summary := {
  total : Z;
  passed : Z;
  failed : Z;
}.

Record Item := {
  query : string;
  validations : list string;
}.

(** The object decoded from the body of [POST /validate].  Any top-level
    property may be missing: an error response carries [error] alone. *)
Record ValidationResponse := {
  error : option string;
  summary : option Summary;
  results : option (list Item);
  pdf_url : option string;
}.

Record Insight := {
  insight_type : string;
  insight_message : string;
  insight_severity : string;
}.

Record AISummary := {
  ai_summary : option string;
  ai_insights : option (list Insight);
}.

(** The object decoded from the body of [POST /analyze_ai]. *)
Record AIResponse := {
  ai_error : option string;
  ai_data_summary : option AISummary;     (* aiData.summary *)
  ai_data_results : option (list Item);   (* aiData.results *)
}.

(** [if (x)] for a property that is a string when present. *)
Definition truthy (x : option string) : option string :=
  match x with
  | Some s => if decide (s = "") then None else Some s
  | None => None
  end.

(** What the two awaited promises of the static phase settle to. *)
Inductive StaticOutcome :=
  | FetchRejected                          (* await fetch(...) raises *)
  | JsonRejected                           (* await response.json() raises *)
  | Decoded (data : ValidationResponse).

Inductive AIOutcome :=
  | AIFetchRejected
  | AIJsonRejected
  | AIDecoded (aiData : AIResponse).

(** ** The page *)

Inductive Content :=
  | InnerHTML (s : string)        (* markup-free text interpolated into a template *)
  | InnerText (s : string).       (* text assigned through innerText *)

Definition textOf (c : Content) : string :=
  match c with InnerHTML s | InnerText s => s end.

Record Li := {
  className : string;
  li_content : Content;
  li_opacity : option string;
  li_transition : option string;
}.

(** [<div class="result-card" data-index=...>] with its [<pre>] and its
    [<ul class="validation-list">]. *)
Record Card := {
  data_index : nat;
  card_query : string;
  validation_list : list Li;
}.

(** Children of [#ai-loading-container]. *)
Inductive Loading :=
  | Thinking                               (* the "AI is thinking..." paragraph *)
  | RedParagraph (s : string)              (* innerHTML = `<p style="color:red">${s}</p>` *)
  | LoadingText (s : string).              (* innerText = s *)

Record LoadingContainer := {
  loading_display : option string;
  loading_children : Loading;
}.

(** The blocks of the markup assigned to [#ai-summary-container], each
    with the strings interpolated into it. *)
Inductive AiBlock :=
  | AiSummaryCard (s : string)
  | AiSectionTitle
  | AiInsightCard (severity type message : string)
  | AiRule.

Record SummaryContainer := {
  summary_children : list AiBlock;
  summary_opacity : option string;
  summary_transition : option string;
}.

(** Children of [#card-container]: the cards, one per result, when the
    markup of every card held markup-free text; otherwise the subtree the
    parser built from the card markup of the results [rs], whose shape the
    parser decides, with whatever a patch loop appended to it afterwards. *)
Inductive CardContainer :=
  | Cards (cards : list Card)
  | ParserDecides (rs : list Item).

(** The tree the static render assigns to [#validationOutput].  The two AI
    containers and the summary come before any interpolated string, so the
    parser builds them as the template has them whatever the cards hold. *)
Record Report := {
  ai_loading_container : LoadingContainer;
  ai_summary_container : SummaryContainer;
  validation_summary : Summary;
  card_container : CardContainer;
}.

Inductive Output :=
  | Paragraph (class : option string) (s : string)
      (* innerHTML = `<p class=...>${s}</p>`: [s] is the interpolated
         string, which the paragraph shows as it is when [s] holds no
         markup *)
  | Rendered (r : Report).

Record Warning := {
  warning_display : string;
  warning_innerText : string;
}.

Record DownloadBtn := {
  btn_display : string;
  onclick : option string;        (* null, or the url the handler opens *)
}.

Record Page := {
  lastFingerprint : option string;         (* null, or the committed one *)
  duplicateWarning : Warning;
  results_display : string;                (* #results style.display *)
  validationOutput : Output;
  topDownloadBtn : DownloadBtn;
}.

(** ** Tasks: state, effect log and exceptions *)

Inductive Effect :=
  | Assign (variable : string)
  | Write (id property : string)
  | Fetch (url : string) (body : FormSnapshot)
  | ConsoleError.

Record World := {
  page : Page;
  trace : list Effect;            (* oldest first *)
}.

Inductive Completion (A : Type) :=
  | Normal (a : A)
  | Throw.
Arguments Normal {A} a.
Arguments Throw {A}.

Definition Js (A : Type) : Type := World -> Completion A * World.

#[global] Instance Js_ret : MRet Js := fun A a w => (Normal a, w).

#[global] Instance Js_bind : MBind Js := fun A B k m w =>
  match m w with
  | (Normal a, w') => k a w'
  | (Throw, w') => (Throw, w')
  end.

Definition throw {A} : Js A := fun w => (Throw, w).

(** [try { body } catch (err) { handler }] *)
Definition try_catch {A} (body handler : Js A) : Js A :=
  fun w =>
    match body w with
    | (Normal a, w') => (Normal a, w')
    | (Throw, w') => handler w'
    end.

Definition log (e : Effect) : Js unit :=
  fun w => (Normal tt, {| page := page w; trace := trace w ++ [e] |}).

Definition read {A} (f : Page -> A) : Js A :=
  fun w => (Normal (f (page w)), w).

Definition update (f : Page -> Page) : Js unit :=
  fun w => (Normal tt, {| page := f (page w); trace := trace w |}).

(** Reading a property of a value that may be [undefined]. *)
Definition defined {A} (x : option A) : Js A :=
  match x with
  | Some a => mret a
  | None => throw
  end.

(** ** Writing to the page *)

Definition with_lastFingerprint (x : option string) (p : Page) : Page :=
  {| lastFingerprint := x;
     duplicateWarning := duplicateWarning p;
     results_display := results_display p;
     validationOutput := validationOutput p;
     topDownloadBtn := topDownloadBtn p |}.

Definition with_duplicateWarning (f : Warning -> Warning) (p : Page) : Page :=
  {| lastFingerprint := lastFingerprint p;
     duplicateWarning := f (duplicateWarning p);
     results_display := results_display p;
     validationOutput := validationOutput p;
     topDownloadBtn := topDownloadBtn p |}.

Definition with_results_display (x : string) (p : Page) : Page :=
  {| lastFingerprint := lastFingerprint p;
     duplicateWarning := duplicateWarning p;
     results_display := x;
     validationOutput := validationOutput p;
     topDownloadBtn := topDownloadBtn p |}.

Definition with_validationOutput (x : Output) (p : Page) : Page :=
  {| lastFingerprint := lastFingerprint p;
     duplicateWarning := duplicateWarning p;
     results_display := results_display p;
     validationOutput := x;
     topDownloadBtn := topDownloadBtn p |}.

Definition with_topDownloadBtn (f : DownloadBtn -> DownloadBtn) (p : Page) : Page :=
  {| lastFingerprint := lastFingerprint p;
     duplicateWarning := duplicateWarning p;
     results_display := results_display p;
     validationOutput := validationOutput p;
     topDownloadBtn := f (topDownloadBtn p) |}.

Definition with_warning_display (x : string) (e : Warning) : Warning :=
  {| warning_display := x; warning_innerText := warning_innerText e |}.

Definition with_warning_innerText (x : string) (e : Warning) : Warning :=
  {| warning_display := warning_display e; warning_innerText := x |}.

Definition with_btn_display (x : string) (b : DownloadBtn) : DownloadBtn :=
  {| btn_display := x; onclick := onclick b |}.

Definition with_onclick (x : option string) (b : DownloadBtn) : DownloadBtn :=
  {| btn_display := btn_display b; onclick := x |}.

Definition with_loading (f : LoadingContainer -> LoadingContainer) (r : Report) : Report :=
  {| ai_loading_container := f (ai_loading_container r);
     ai_summary_container := ai_summary_container r;
     validation_summary := validation_summary r;
     card_container := card_container r |}.

Definition with_ai_summary (f : SummaryContainer -> SummaryContainer) (r : Report) : Report :=
  {| ai_loading_container := ai_loading_container r;
     ai_summary_container := f (ai_summary_container r);
     validation_summary := validation_summary r;
     card_container := card_container r |}.

Definition with_cards (x : CardContainer) (r : Report) : Report :=
  {| ai_loading_container := ai_loading_container r;
     ai_summary_container := ai_summary_container r;
     validation_summary := validation_summary r;
     card_container := x |}.

Definition with_loading_display (x : option string) (c : LoadingContainer) : LoadingContainer :=
  {| loading_display := x; loading_children := loading_children c |}.

Definition with_loading_children (x : Loading) (c : LoadingContainer) : LoadingContainer :=
  {| loading_display := loading_display c; loading_children := x |}.

Definition with_summary_children (x : list AiBlock) (c : SummaryContainer) : SummaryContainer :=
  {| summary_children := x;
     summary_opacity := summary_opacity c;
     summary_transition := summary_transition c |}.

Definition with_summary_opacity (x : option string) (c : SummaryContainer) : SummaryContainer :=
  {| summary_children := summary_children c;
     summary_opacity := x;
     summary_transition := summary_transition c |}.

Definition with_summary_transition (x : option string) (c : SummaryContainer) : SummaryContainer :=
  {| summary_children := summary_children c;
     summary_opacity := summary_opacity c;
     summary_transition := x |}.

(** [variable = ...] on the script's global. *)
Definition assign (variable : string) (f : Page -> Page) : Js unit :=
  update f;; log (Assign variable).

(** [document.getElementById(id).property = ...] for an element of the
    static document. *)
Definition write (id property : string) (f : Page -> Page) : Js unit :=
  update f;; log (Write id property).

(** The same for an element that exists only inside a rendered report:
    while [#validationOutput] holds a bare paragraph, [getElementById]
    gives [null] and the property access raises. *)
Definition write_report (id property : string) (f : Report -> Report) : Js unit :=
  out ← read validationOutput;
  match out with
  | Rendered r => write id property (with_validationOutput (Rendered (f r)))
  | Paragraph _ _ => throw
  end.

(** [fetch(url, { method: "POST", body })]: the request is issued. *)
Definition fetch (url : string) (body : FormSnapshot) : Js unit :=
  log (Fetch url body).

(** ** The static render *)

Definition FAILURE_GLYPH : string := "❌".
Definition WARNING_GLYPH : string := "⚠️".
Definition AI_GLYPH : string := "🧠".

(** The class computed inside [item.validations.map(v => ...)]. *)
Definition cls (v : string) : string :=
  if startsWith v FAILURE_GLYPH then "error"
  else if startsWith v WARNING_GLYPH then "warning"
  else if startsWith v AI_GLYPH then "ai-msg"
  else "success".

(** Text the HTML parser reads as one run of character data: no [<] (a
    tag), no [&] (a character reference), no NUL (dropped by the parser) and
    no carriage return (turned into a line feed).  Interpolated into markup
    and assigned through [innerHTML], such text becomes one text node with
    the same text; any other text is for the parser to decide. *)
Definition markupFree (s : string) : bool :=
  negb (includes s "<") && negb (includes s "&")
  && negb (includes s "000") && negb (includes s "013").

(** [<li class="${cls}">${v}</li>]: the list item the parser builds for a
    markup-free message; [None] when the message holds markup, which may
    yield other text, several items or none. *)
Definition renderLi (v : string) : option Li :=
  if markupFree v
  then Some {| className := cls v;
               li_content := InnerHTML v;
               li_opacity := None;
               li_transition := None |}
  else None.

(** The card built for [(item, index)] by [data.results.forEach]: one
    [result-card] with its query and one list item per message; [None]
    when the query or a message holds markup, which may lose text and add
    or displace [result-card] and [validation-list] elements. *)
Definition renderCard (index : nat) (item : Item) : option Card :=
  if markupFree (query item)
  then items ← mapM renderLi (validations item);
       Some {| data_index := index;
               card_query := query item;
               validation_list := items |}
  else None.

(** The cards of [data.results.forEach((item, index) => ...)], from
    [index] on; [None] as soon as one card is for the parser to decide. *)
Fixpoint renderCards (index : nat) (rs : list Item) : option (list Card) :=
  match rs with
  | [] => Some []
  | item :: rest =>
      card ← renderCard index item;
      cards ← renderCards (S index) rest;
      Some (card :: cards)
  end.

(** The tree the parser builds from [html]: placeholder, empty AI summary
    container, summary, and the card container, whose children are the
    cards when all their text is markup-free. *)
Definition renderStatic (s : Summary) (rs : list Item) : Report :=
  {| ai_loading_container :=
       {| loading_display := None; loading_children := Thinking |};
     ai_summary_container :=
       {| summary_children := [];
          summary_opacity := None;
          summary_transition := None |};
     validation_summary := s;
     card_container :=
       match renderCards 0 rs with
       | Some cards => Cards cards
       | None => ParserDecides rs
       end |}.

(** ** Patching the cards with the AI messages *)

(** The [li] created for [msg] inside [aiMessages.forEach]. *)
Definition createLi (msg : string) : Li :=
  {| className := "ai-msg";
     li_content := InnerText msg;
     li_opacity := Some "0";
     li_transition := Some "opacity 1s" |}.

(** [ul.appendChild(li)] on the list of a card. *)
Definition appendChild (card : Card) (li : Li) : Card :=
  {| data_index := data_index card;
     card_query := card_query card;
     validation_list := validation_list card ++ [li] |}.

(** [aiMessages.forEach(msg => { ...; ul.appendChild(li); })] *)
Definition appendMessages (aiMessages : list string) (card : Card) : Card :=
  foldl (fun c msg => appendChild c (createLi msg)) card aiMessages.

(** [item.validations.filter(v => v.startsWith(AI_GLYPH))] *)
Definition aiMessagesOf (item : Item) : list string :=
  filter (fun v => startsWith v AI_GLYPH) (validations item).

(** [aiData.results.forEach((item, index) => ...)], from [index] on, over
    the live collection [cards]. *)
Fixpoint forEachResult (aiResults : list Item) (index : nat)
    (cards : list Card) : list Card :=
  match aiResults with
  | [] => cards
  | item :: rest =>
      let aiMessages := aiMessagesOf item in
      let cards' :=
        if bool_decide (0 < length aiMessages)
           && bool_decide (is_Some (cards !! index))
        then alter (appendMessages aiMessages) index cards
        else cards in
      forEachResult rest (S index) cards'
  end.

Definition applyPerQueryInsights (aiResults : list Item)
    (cards : list Card) : list Card :=
  forEachResult aiResults 0 cards.

(** The blocks of [aiHtml]. *)
Definition insightCard (insight : Insight) : AiBlock :=
  AiInsightCard (insight_severity insight) (insight_type insight)
    (insight_message insight).

Definition aiHtml (s : AISummary) : list AiBlock :=
  (match truthy (ai_summary s) with
   | Some text => [AiSummaryCard text]
   | None => []
   end)
  ++
  (match ai_insights s with
   | Some (i :: insights) =>
       AiSectionTitle :: (insightCard <$> (i :: insights)) ++ [AiRule]
   | _ => []
   end).

(** ** The handlers *)

Definition DUPLICATE_MESSAGE : string :=
  "⚠️ You have already validated this file with these specific details. Please upload a new file or modify the details to validate again.".

Definition VALIDATING : Output :=
  Paragraph None "🔄 Validating, please wait...".

Definition GENERIC_ERROR : Output :=
  Paragraph (Some "error") "❌ An error occurred.".

(** The listeners for [input] and [change]. *)
Definition onInput : Js unit :=
  write "duplicateWarning" "style.display"
    (with_duplicateWarning (with_warning_display "none")).

(** What the submit handler keeps across its [await]s. *)
Record Suspended := {
  suspendedFingerprint : string;      (* const currentFingerprint *)
  formData : FormSnapshot;            (* new FormData(this) *)
}.

(** The submit handler up to its first [await]: [None] when the guard
    returned, otherwise the suspended handler waiting for [/validate].
    [e.preventDefault()] touches neither the page nor the script's state
    and is left out. *)
Definition onSubmit (form : FormSnapshot) : Js (option Suspended) :=
  let fingerprint := currentFingerprint form in
  write "duplicateWarning" "style.display"
    (with_duplicateWarning (with_warning_display "none"));;
  write "duplicateWarning" "innerText"
    (with_duplicateWarning (with_warning_innerText ""));;
  last ← read lastFingerprint;
  if bool_decide (last = Some fingerprint) then
    write "duplicateWarning" "innerText"
      (with_duplicateWarning (with_warning_innerText DUPLICATE_MESSAGE));;
    write "duplicateWarning" "style.display"
      (with_duplicateWarning (with_warning_display "block"));;
    mret None
  else
    let formData := form in
    write "topDownloadBtn" "style.display"
      (with_topDownloadBtn (with_btn_display "none"));;
    write "topDownloadBtn" "onclick"
      (with_topDownloadBtn (with_onclick None));;
    write "results" "style.display" (with_results_display "block");;
    write "validationOutput" "innerHTML" (with_validationOutput VALIDATING);;
    fetch "/validate" formData;;
    mret (Some {| suspendedFingerprint := fingerprint; formData := formData |}).

(** [await fetch(...)] followed by [await response.json()]. *)
Definition await (outcome : StaticOutcome) : Js ValidationResponse :=
  match outcome with
  | Decoded data => mret data
  | FetchRejected | JsonRejected => throw
  end.

(** The rest of the submit handler, resumed when the static request has
    settled: the body of [try] and the [catch]. *)
Definition onStaticSettled (k : Suspended) (outcome : StaticOutcome) : Js unit :=
  try_catch
    (data ← await outcome;
     match truthy (error data) with
     | Some message =>
         write "validationOutput" "innerHTML"
           (with_validationOutput (Paragraph (Some "error") message))
     | None =>
         assign "lastFingerprint"
           (with_lastFingerprint (Some (suspendedFingerprint k)));;
         s ← defined (summary data);
         rs ← defined (results data);
         write "validationOutput" "innerHTML"
           (with_validationOutput (Rendered (renderStatic s rs)));;
         match truthy (pdf_url data) with
         | Some url =>
             write "topDownloadBtn" "style.display"
               (with_topDownloadBtn (with_btn_display "inline-block"));;
             write "topDownloadBtn" "onclick"
               (with_topDownloadBtn (with_onclick (Some url)))
         | None => mret tt
         end;;
         fetch "/analyze_ai" (formData k)
     end)
    (write "validationOutput" "innerHTML" (with_validationOutput GENERIC_ERROR)).

(** What the embedding takes from the browser.  [patchRaises rs aiResults]:
    on the subtree the parser built from the card markup of the static
    results [rs], some text of which holds markup, the patch loop for
    [aiResults] reaches a card in which [querySelector(".validation-list")]
    finds nothing, and raises at [ul.appendChild].  The items the loop
    appends hold text only, so the answer is the same before and after
    earlier patches. *)
Record Browser := {
  patchRaises : list Item -> list Item -> bool;
}.

(** [aiData.results.forEach(...)] on the children of [#card-container]. *)
Definition patchCards (browser : Browser) (aiResults : list Item) : Js unit :=
  out ← read validationOutput;
  match out with
  | Rendered r =>
      match card_container r with
      | Cards cards =>
          write "card-container" "appendChild"
            (with_validationOutput
               (Rendered (with_cards (Cards (applyPerQueryInsights aiResults cards)) r)))
      | ParserDecides rs =>
          log (Write "card-container" "appendChild");;
          if bool_decide (Forall (fun item => aiMessagesOf item = []) aiResults)
          then mret tt                  (* no index gets as far as cards[index] *)
          else if patchRaises browser rs aiResults then throw
          else mret tt
      end
  | Paragraph _ _ => throw
  end.

(** The callback [aiData => { ... }] of the AI promise. *)
Definition onAIData (browser : Browser) (aiData : AIResponse) : Js unit :=
  match truthy (ai_error aiData) with
  | Some message =>
      log ConsoleError;;
      write_report "ai-loading-container" "innerHTML"
        (with_loading (with_loading_children
           (RedParagraph ("AI Analysis failed: " +:+ message))))
  | None =>
      write_report "ai-loading-container" "style.display"
        (with_loading (with_loading_display (Some "none")));;
      s ← defined (ai_data_summary aiData);
      write_report "ai-summary-container" "innerHTML"
        (with_ai_summary (with_summary_children (aiHtml s)));;
      write_report "ai-summary-container" "style.opacity"
        (with_ai_summary (with_summary_opacity (Some "0")));;
      write_report "ai-summary-container" "style.transition"
        (with_ai_summary (with_summary_transition (Some "opacity 0.5s")));;
      rs ← defined (ai_data_results aiData);
      patchCards browser rs
  end.

(** The callback [err => { ... }] of the AI promise. *)
Definition onAIError : Js unit :=
  log ConsoleError;;
  write_report "ai-loading-container" "innerText"
    (with_loading (with_loading_children (LoadingText ""))).

(** [fetch(...).then(res => res.json()).then(onAIData).catch(onAIError)],
    run when the AI request has settled. *)
Definition onAISettled (browser : Browser) (outcome : AIOutcome) : Js unit :=
  match outcome with
  | AIDecoded aiData => try_catch (onAIData browser aiData) onAIError
  | AIFetchRejected | AIJsonRejected => onAIError
  end.

(** Running a task on a page with an empty log. *)
Definition run {A} (task : Js A) (p : Page) : Completion A * World :=
  task {| page := p; trace := [] |}.

Definition pageAfter {A} (task : Js A) (p : Page) : Page :=
  page (run task p).2.

Definition effectsOf {A} (task : Js A) (p : Page) : list Effect :=
  trace (run task p).2.

Definition resultOf {A} (task : Js A) (p : Page) : Completion A :=
  (run task p).1.

(** ** The event loop *)

(** What the browser hands to the script, one task at a time: the user
    changes an input or submits the form, a pending static request settles,
    a pending AI request settles.  Pending requests are named by their
    position among the pending ones. *)
Inductive Event :=
  | InputChanged
  | Submitted (form : FormSnapshot)
  | StaticSettled (i : nat) (outcome : StaticOutcome)
  | AISettled (i : nat) (outcome : AIOutcome).

Record Loop := {
  current : Page;
  suspended : list Suspended;        (* submit handlers at their await *)
  aiPending : list FormSnapshot;     (* bodies of the unsettled AI requests *)
}.

(** The AI requests a task has issued. *)
Definition issuedAI (effects : list Effect) : list FormSnapshot :=
  omap (fun e =>
          match e with
          | Fetch url body =>
              if decide (url = "/analyze_ai") then Some body else None
          | _ => None
          end) effects.

(** One task of the loop; [None] when the event names a request that is
    not pending. *)
Definition dispatch (browser : Browser) (l : Loop) (e : Event) : option Loop :=
  match e with
  | InputChanged =>
      Some {| current := pageAfter onInput (current l);
              suspended := suspended l;
              aiPending := aiPending l |}
  | Submitted form =>
      Some {| current := pageAfter (onSubmit form) (current l);
              suspended :=
                suspended l ++
                match resultOf (onSubmit form) (current l) with
                | Normal (Some k) => [k]
                | _ => []
                end;
              aiPending := aiPending l |}
  | StaticSettled i outcome =>
      k ← suspended l !! i;
      Some {| current := pageAfter (onStaticSettled k outcome) (current l);
              suspended := delete i (suspended l);
              aiPending :=
                aiPending l ++
                issuedAI (effectsOf (onStaticSettled k outcome) (current l)) |}
  | AISettled i outcome =>
      _ ← aiPending l !! i;
      Some {| current := pageAfter (onAISettled browser outcome) (current l);
              suspended := suspended l;
              aiPending := delete i (aiPending l) |}
  end.

Fixpoint dispatchAll (browser : Browser) (l : Loop) (events : list Event) :
    option Loop :=
  match events with
  | [] => Some l
  | e :: events => l' ← dispatch browser l e; dispatchAll browser l' events
  end.

Definition loaded (p : Page) : Loop :=
  {| current := p; suspended := []; aiPending := [] |}.

(** ** Vocabulary of the statements *)

(** None of the four text inputs holds the separator. *)
Definition separatorFree (form : FormSnapshot) : Prop :=
  includes (name form) "|" = false /\
  includes (email form) "|" = false /\
  includes (team form) "|" = false /\
  includes (cr_number form) "|" = false.

(** Two forms that differ only in where a typed [|] falls. *)
Definition formPipeInName : FormSnapshot :=
  {| name := "a|"; email := "b"; team := "T"; cr_number := "CR1"; files := [] |}.

Definition formPipeInEmail : FormSnapshot :=
  {| name := "a"; email := "|b"; team := "T"; cr_number := "CR1"; files := [] |}.

(** The form of the end-to-end scenario, and the same form with another
    file whose name holds the separator. *)
Definition formScenario : FormSnapshot :=
  {| name := "A"; email := "a@x.com"; team := "T"; cr_number := "CR1";
     files := [ {| file_name := "q.sql"; file_size := 10;
                   file_lastModified := 1000 |} ] |}.

Definition formRenamedFile : FormSnapshot :=
  {| name := "A"; email := "a@x.com"; team := "T"; cr_number := "CR1";
     files := [ {| file_name := "q|1.sql"; file_size := 10;
                   file_lastModified := 1000 |} ] |}.

(** The form of the scenario with a second file selected after the first;
    the handler reads [files[0]] only. *)
Definition formSecondFile : FormSnapshot :=
  {| name := "A"; email := "a@x.com"; team := "T"; cr_number := "CR1";
     files := [ {| file_name := "q.sql"; file_size := 10;
                   file_lastModified := 1000 |};
                {| file_name := "r.sql"; file_size := 20;
                   file_lastModified := 2000 |} ] |}.

(** The AI-tagged messages that [aiResults[i]] holds, none when the
    response has no entry [i]. *)
Definition aiMessagesAt (aiResults : list Item) (i : nat) : list string :=
  match aiResults !! i with
  | Some item => aiMessagesOf item
  | None => []
  end.

(** A card with one new list item per message after the items it has. *)
Definition withAppended (messages : list string) (card : Card) : Card :=
  {| data_index := data_index card;
     card_query := card_query card;
     validation_list := validation_list card ++ (createLi <$> messages) |}.

(** One submission run to the end of its static phase with nothing in
    between: the handler up to its [await] and, unless the guard returned,
    its resumption with [outcome]. *)
Definition submitAndSettle (form : FormSnapshot) (outcome : StaticOutcome) : Js unit :=
  k ← onSubmit form;
  match k with
  | Some k => onStaticSettled k outcome
  | None => mret tt
  end.

(** The network call of the static phase raises: [fetch] rejects, or the
    body cannot be decoded and [response.json()] rejects. *)
Definition transportFailure (outcome : StaticOutcome) : Prop :=
  outcome = FetchRejected \/ outcome = JsonRejected.

(** The static phase failed: the call raised, or the decoded response
    carries a top-level error. *)
Definition staticFailed (outcome : StaticOutcome) : Prop :=
  transportFailure outcome \/
  exists data message, outcome = Decoded data /\ truthy (error data) = Some message.

(** The network call of the AI phase raises. *)
Definition aiTransportFailure (outcome : AIOutcome) : Prop :=
  outcome = AIFetchRejected \/ outcome = AIJsonRejected.

Definition DISARMED : DownloadBtn :=
  {| btn_display := "none"; onclick := None |}.

Definition ARMED (url : string) : DownloadBtn :=
  {| btn_display := "inline-block"; onclick := Some url |}.

Definition WARNING_SHOWN : Warning :=
  {| warning_display := "block"; warning_innerText := DUPLICATE_MESSAGE |}.

Definition WARNING_CLEARED : Warning :=
  {| warning_display := "none"; warning_innerText := "" |}.

(** The text a user reads inside [#ai-loading-container]. *)
Definition loadingText (c : Loading) : string :=
  match c with
  | Thinking => "⚡ Static analysis complete. AI is thinking... "
  | RedParagraph s => s
  | LoadingText s => s
  end.

(** The page a submission that passed the guard leaves at its [await]. *)
Definition validating (p : Page) : Page :=
  {| lastFingerprint := lastFingerprint p;
     duplicateWarning := WARNING_CLEARED;
     results_display := "block";
     validationOutput := VALIDATING;
     topDownloadBtn := DISARMED |}.

(** The AI phase failed: the call raised, or the decoded response carries
    a top-level error. *)
Definition aiFailed (outcome : AIOutcome) : Prop :=
  aiTransportFailure outcome \/
  exists aiData message,
    outcome = AIDecoded aiData /\ truthy (ai_error aiData) = Some message.

(** What the placeholder reads on a page, when there is one. *)
Definition placeholderText (p : Page) : option string :=
  match validationOutput p with
  | Rendered r => Some (loadingText (loading_children (ai_loading_container r)))
  | Paragraph _ _ => None
  end.

(** The cards a page is known to hold: none when the page holds no
    report, or when the parser decided the children of the card container. *)
Definition cardsOf (p : Page) : list Card :=
  match validationOutput p with
  | Rendered r =>
      match card_container r with
      | Cards cards => cards
      | ParserDecides _ => []
      end
  | Paragraph _ _ => []
  end.

(** The messages of the list items of every card on a page. *)
Definition cardMessages (p : Page) : list (list string) :=
  (fun card => (fun li => textOf (li_content li)) <$> validation_list card)
    <$> cardsOf p.

(** A browser on whose trees the patch loop never raises. *)
Definition lenientBrowser : Browser :=
  {| patchRaises := fun _ _ => false |}.

(** A freshly loaded page, and the responses of the scenarios. *)
Definition pageLoaded : Page :=
  {| lastFingerprint := None;
     duplicateWarning := WARNING_CLEARED;
     results_display := "none";
     validationOutput := Paragraph None "";
     topDownloadBtn := DISARMED |}.

Definition responseScenario : ValidationResponse :=
  {| error := None;
     summary := Some {| total := 1; passed := 0; failed := 1 |};
     results := Some [ {| query := "SELECT 1";
                          validations := ["❌ syntax error"] |} ];
     pdf_url := Some "/r/1.pdf" |}.

Definition pageRendered : Page :=
  pageAfter (submitAndSettle formScenario (Decoded responseScenario)) pageLoaded.

(** A static response that already holds an AI-tagged message, and an AI
    response that holds the same message for the same query. *)
Definition responseWithInsight : ValidationResponse :=
  {| error := None;
     summary := Some {| total := 1; passed := 1; failed := 0 |};
     results := Some [ {| query := "SELECT 1";
                          validations := ["🧠 Consider an index"] |} ];
     pdf_url := None |}.

Definition aiResponseSameInsight : AIResponse :=
  {| ai_error := None;
     ai_data_summary := Some {| ai_summary := None; ai_insights := None |};
     ai_data_results := Some [ {| query := "SELECT 1";
                                  validations := ["🧠 Consider an index"] |} ] |}.

(** ** The earlier revisions *)

(** The class computed by the first listing of [static/main.js] and by the
    oldest handler, which have no branch for the AI glyph. *)
Definition cls_v1 (v : string) : string :=
  if startsWith v FAILURE_GLYPH then "error"
  else if startsWith v WARNING_GLYPH then "warning"
  else "success".

(** ** Further vocabulary *)

(** A decoded response with its [error] property taken away. *)
Definition withoutError (data : ValidationResponse) : ValidationResponse :=
  {| error := None;
     summary := summary data;
     results := results data;
     pdf_url := pdf_url data |}.

(** A decoded response with its [pdf_url] property taken away. *)
Definition withoutPdfUrl (data : ValidationResponse) : ValidationResponse :=
  {| error := error data;
     summary := summary data;
     results := results data;
     pdf_url := None |}.

(** The requests a task has issued, in order. *)
Definition fetchesOf (effects : list Effect) : list (string * FormSnapshot) :=
  omap (fun e =>
          match e with
          | Fetch url body => Some (url, body)
          | _ => None
          end) effects.

(** The [data-index] of every card on a page. *)
Definition cardIndexes (p : Page) : list nat :=
  data_index <$> cardsOf p.

(** The class of every list item of every card on a page. *)
Definition cardClasses (p : Page) : list (list string) :=
  (fun card => className <$> validation_list card) <$> cardsOf p.

(** No query and no message of the results holds markup. *)
Definition markupFreeItem (item : Item) : bool :=
  markupFree (query item) && forallb markupFree (validations item).

Definition markupFreeResults (rs : list Item) : bool :=
  forallb markupFreeItem rs.

(** A message is AI-tagged when it is the AI glyph followed by any text. *)
Definition aiTagged (v : string) : Prop :=
  exists rest, v = "🧠" +:+ rest.

(** [kept] is [vs] with exactly its AI-tagged messages kept, in order and
    as often as they occur. *)
Inductive onlyTagged : list string -> list string -> Prop :=
  | onlyTagged_nil : onlyTagged [] []
  | onlyTagged_keep v vs kept :
      aiTagged v -> onlyTagged vs kept -> onlyTagged (v :: vs) (v :: kept)
  | onlyTagged_skip v vs kept :
      ~ aiTagged v -> onlyTagged vs kept -> onlyTagged (v :: vs) kept.

(** The messages of [rs[i]], none when the response has no entry [i]. *)
Definition validationsAt (rs : list Item) (i : nat) : list string :=
  match rs !! i with
  | Some item => validations item
  | None => []
  end.

(** The list item that shows an AI message: class [ai-msg], the message as
    its text, faded in from opacity 0. *)
Definition aiItem (msg : string) : Li :=
  {| className := "ai-msg";
     li_content := InnerText msg;
     li_opacity := Some "0";
     li_transition := Some "opacity 1s" |}.

(** The text of the list items of a card. *)
Definition itemTexts (card : Card) : list string :=
  (fun li => textOf (li_content li)) <$> validation_list card.

(** The text a paragraph shows, known when the interpolated string is
    markup-free. *)
Definition paragraphText (out : Output) : option string :=
  match out with
  | Paragraph _ s => if markupFree s then Some s else None
  | Rendered _ => None
  end.

(** * Properties *)

(** ** Fingerprint *)

Section strings.

Lemma append_nil_l (s : string) : "" +:+ s = s.
Proof. reflexivity. Qed.

Lemma append_cons (a : ascii) (s t : string) :
  String a s +:+ t = String a (s +:+ t).
Proof. reflexivity. Qed.

Lemma includes_append_sep (x y : string) (c : ascii) :
  includes (x +:+ String c y) c = true.
Proof.
  induction x as [|a x IH].
  - rewrite append_nil_l. simpl. by rewrite decide_True.
  - rewrite append_cons. simpl. by destruct (decide (a = c)).
Qed.

(** The first separator of a joined string ends a field that holds none. *)
Lemma split_left (c : ascii) (a a' b b' : string) :
  includes a c = false -> includes a' c = false ->
  a +:+ String c b = a' +:+ String c b' -> a = a' /\ b = b'.
Proof.
  revert a'. induction a as [|x a IH]; intros [|x' a'] Ha Ha' E;
    rewrite ?append_nil_l, ?append_cons in E; simpl in *.
  - by simplify_eq.
  - simplify_eq. by rewrite decide_True in Ha'.
  - simplify_eq. by rewrite decide_True in Ha.
  - injection E as -> E.
    destruct (decide (x' = c)); [done|].
    destruct (IH a' Ha Ha' E) as [-> ->]. done.
Qed.

(** The last separator starts a field that holds none. *)
Lemma split_right (c : ascii) (x x' y y' : string) :
  includes y c = false -> includes y' c = false ->
  x +:+ String c y = x' +:+ String c y' -> x = x' /\ y = y'.
Proof.
  revert x'. induction x as [|a x IH]; intros [|a' x'] Hy Hy' E;
    rewrite ?append_nil_l, ?append_cons in E.
  - by simplify_eq.
  - injection E as -> ->. by rewrite includes_append_sep in Hy.
  - injection E as -> <-. by rewrite includes_append_sep in Hy'.
  - injection E as -> E. destruct (IH x' Hy Hy' E) as [-> ->]. done.
Qed.

Lemma String_app_assoc (s t u : string) : s +:+ (t +:+ u) = (s +:+ t) +:+ u.
Proof.
  induction s as [|a s IH]; [done|]. by rewrite !append_cons, IH.
Qed.

End strings.

Section decimal.

Lemma pretty_N_char_not_pipe (x : N) : pretty_N_char x <> "|"%char.
Proof. unfold pretty_N_char. by repeat case_match. Qed.

Lemma pretty_N_go_includes (x : N) (s : string) :
  includes s "|" = false -> includes (pretty_N_go x s) "|" = false.
Proof.
  revert s. induction (N.lt_wf_0 x) as [x _ IH]; intros s Hs.
  destruct (decide (x = 0)%N) as [->|Hx]; [by rewrite pretty_N_go_0|].
  rewrite pretty_N_go_step by lia.
  apply IH; [apply N.div_lt; lia|].
  simpl. rewrite decide_False; [done|apply pretty_N_char_not_pipe].
Qed.

Lemma pretty_N_go_length (x : N) (s : string) :
  String.length s <= String.length (pretty_N_go x s).
Proof.
  revert s. induction (N.lt_wf_0 x) as [x _ IH]; intros s.
  destruct (decide (x = 0)%N) as [->|Hx]; [by rewrite pretty_N_go_0|].
  rewrite pretty_N_go_step by lia.
  etrans; [|apply IH, N.div_lt; lia]. simpl. lia.
Qed.

Lemma pretty_N_includes (x : N) : includes (pretty x) "|" = false.
Proof.
  unfold pretty, pretty_N. case_decide; [done|].
  by apply pretty_N_go_includes.
Qed.

Lemma pretty_N_nonempty (x : N) : pretty x <> "".
Proof.
  unfold pretty, pretty_N. case_decide; [done|].
  intros E. pose proof (pretty_N_go_step x "" ltac:(lia)) as Hstep.
  pose proof (pretty_N_go_length (x `div` 10)
    (String (pretty_N_char (x `mod` 10)) "")) as Hlen.
  rewrite <- Hstep, E in Hlen. simpl in Hlen. lia.
Qed.

Lemma pretty_Z_includes (z : Z) : includes (pretty z) "|" = false.
Proof.
  destruct z as [|p|p]; [done|apply pretty_N_includes|].
  unfold pretty, pretty_Z. change ("-" +:+ ?s) with (String "-" s).
  simpl. apply pretty_N_includes.
Qed.

Lemma pretty_Z_nonempty (z : Z) : pretty z <> "".
Proof.
  destruct z as [|p|p]; [done|apply pretty_N_nonempty|done].
Qed.

End decimal.

Lemma join7 (v1 v2 v3 v4 v5 v6 v7 : value) :
  join [v1; v2; v3; v4; v5; v6; v7] separator =
  ToString v1 +:+ String "|" (ToString v2 +:+ String "|" (ToString v3 +:+
    String "|" (ToString v4 +:+ String "|" (ToString v5 +:+
      String "|" (ToString v6 +:+ String "|" (ToString v7)))))).
Proof. reflexivity. Qed.

(** The three file entries are recovered from the right, whatever the file
    name holds, because the two numbers hold no separator. *)
Lemma file_entries_inj (f s l f' s' l' : string) :
  includes s "|" = false -> includes l "|" = false ->
  includes s' "|" = false -> includes l' "|" = false ->
  f +:+ String "|" (s +:+ String "|" l) = f' +:+ String "|" (s' +:+ String "|" l') ->
  f = f' /\ s = s' /\ l = l'.
Proof.
  intros Hs Hl Hs' Hl' E.
  rewrite <- !append_cons, !String_app_assoc in E.
  apply split_right in E as [E ->]; [|done..].
  apply split_right in E as [-> ->]; done.
Qed.

Lemma ToString_file_inj (v v' : value) :
  ToString v = ToString v' ->
  (v = VString "" \/ exists z, v = VNumber z) ->
  (v' = VString "" \/ exists z, v' = VNumber z) ->
  v = v'.
Proof.
  intros E [->|[z ->]] [->|[z' ->]]; simpl in E.
  - done.
  - by destruct (pretty_Z_nonempty z').
  - by destruct (pretty_Z_nonempty z).
  - by apply (inj pretty) in E as ->.
Qed.

Lemma ToString_file_includes (v : value) :
  (v = VString "" \/ exists z, v = VNumber z) ->
  includes (ToString v) "|" = false.
Proof. intros [->|[z ->]]; [done|apply pretty_Z_includes]. Qed.

(** C1, as the code has it: equal components always give equal
    fingerprints, for every two forms; and equal fingerprints give equal
    components when none of the four text inputs (name, email, team,
    cr_number) of either form holds the separator; the file name may hold
    it. *)
Theorem fingerprint_eq_iff_components (a b : FormSnapshot) :
  (components a = components b ->
   currentFingerprint a = currentFingerprint b) /\
  (separatorFree a -> separatorFree b ->
   currentFingerprint a = currentFingerprint b ->
   components a = components b).
Proof.
  unfold currentFingerprint. split; [by intros ->|].
  intros (Ha1 & Ha2 & Ha3 & Ha4) (Hb1 & Hb2 & Hb3 & Hb4).
  unfold components. rewrite !join7. cbn [ToString]. intros E.
  apply split_left in E as [-> E]; [|done..].
  apply split_left in E as [-> E]; [|done..].
  apply split_left in E as [-> E]; [|done..].
  apply split_left in E as [-> E]; [|done..].
  assert (forall o : option File,
    let s := match o with
             | Some f => VNumber (Z.of_N (file_size f)) | None => VString "" end in
    let l := match o with
             | Some f => VNumber (file_lastModified f) | None => VString "" end in
    (s = VString "" \/ exists z, s = VNumber z) /\
    (l = VString "" \/ exists z, l = VNumber z)) as Hshape.
  { intros [f|]; simpl; split; eauto. }
  destruct (Hshape (head (files a))) as [Hsa Hla].
  destruct (Hshape (head (files b))) as [Hsb Hlb].
  apply file_entries_inj in E as (Ef & Es & El);
    [|by apply ToString_file_includes..].
  apply ToString_file_inj in Es; [|done..].
  apply ToString_file_inj in El; [|done..].
  rewrite Es, El. do 4 f_equal.
  destruct (head (files a)), (head (files b)); simpl in *; congruence.
Qed.

Lemma fingerprint_eq_iff_components_witness :
  separatorFree formScenario /\ separatorFree formSecondFile /\
  formScenario <> formSecondFile /\
  currentFingerprint formScenario = currentFingerprint formSecondFile /\
  components formScenario = components formSecondFile /\
  currentFingerprint formPipeInName = "a||b|T|CR1|||".
Proof.
  assert (separatorFree formScenario) as Ha by (repeat split; reflexivity).
  assert (separatorFree formSecondFile) as Hb by (repeat split; reflexivity).
  split; [exact Ha|]. split; [exact Hb|]. split; [discriminate|].
  split; [|split].
  - exact (proj1 (fingerprint_eq_iff_components formScenario formSecondFile)
             eq_refl).
  - exact (proj2 (fingerprint_eq_iff_components formScenario formSecondFile)
             Ha Hb eq_refl).
  - reflexivity.
Defined.

(** C1 as stated fails: the two forms below differ in name and email and
    have the same fingerprint. *)
Lemma fingerprint_collision :
  currentFingerprint formPipeInName = currentFingerprint formPipeInEmail /\
  components formPipeInName <> components formPipeInEmail.
Proof. split; [reflexivity|discriminate]. Qed.

(** ** Classification *)

Lemma startsWith_append (s rest : string) : startsWith (s +:+ rest) s = true.
Proof.
  unfold startsWith. induction s as [|a s IH].
  - rewrite append_nil_l. by destruct rest.
  - rewrite append_cons. simpl. by destruct (Ascii.ascii_dec a a).
Qed.

(** The failure and the warning glyph share their first byte and differ in
    the second; the AI glyph differs from both in the first. *)
Lemma warning_not_failure (rest : string) :
  startsWith (WARNING_GLYPH +:+ rest) FAILURE_GLYPH = false.
Proof. reflexivity. Qed.

Lemma ai_not_failure (rest : string) :
  startsWith (AI_GLYPH +:+ rest) FAILURE_GLYPH = false.
Proof. reflexivity. Qed.

Lemma ai_not_warning (rest : string) :
  startsWith (AI_GLYPH +:+ rest) WARNING_GLYPH = false.
Proof. reflexivity. Qed.

(** C6: the class of a message is decided by the glyph it begins with, the
    failure glyph first, then the warning glyph, then the AI glyph; whatever
    follows the leading glyph (a warning glyph included) is not looked at,
    and a message that begins with none of the three is a success. *)
Theorem cls_by_leading_glyph :
  (forall rest, cls (FAILURE_GLYPH +:+ rest) = "error") /\
  (forall rest, cls (WARNING_GLYPH +:+ rest) = "warning") /\
  (forall rest, cls (AI_GLYPH +:+ rest) = "ai-msg") /\
  (forall v,
     startsWith v FAILURE_GLYPH = false ->
     startsWith v WARNING_GLYPH = false ->
     startsWith v AI_GLYPH = false ->
     cls v = "success").
Proof.
  repeat split.
  - intros rest. unfold cls. by rewrite startsWith_append.
  - intros rest. unfold cls.
    by rewrite warning_not_failure, startsWith_append.
  - intros rest. unfold cls.
    by rewrite ai_not_failure, ai_not_warning, startsWith_append.
  - intros v H1 H2 H3. unfold cls. by rewrite H1, H2, H3.
Qed.

Lemma cls_by_leading_glyph_witness :
  cls (FAILURE_GLYPH +:+ " bad ⚠️ check") = "error" /\
  cls "✅ Query is valid" = "success".
Proof.
  destruct cls_by_leading_glyph as (Hfail & _ & _ & Hnone).
  split; [apply Hfail|].
  apply Hnone; reflexivity.
Defined.

(** ** Patching *)

Lemma withAppended_nil (card : Card) : withAppended [] card = card.
Proof. destruct card. unfold withAppended. simpl. by rewrite app_nil_r. Qed.

Lemma appendMessages_withAppended (messages : list string) (card : Card) :
  appendMessages messages card = withAppended messages card.
Proof.
  unfold appendMessages. revert card.
  induction messages as [|msg messages IH]; intros card; simpl.
  - by rewrite withAppended_nil.
  - rewrite IH. unfold withAppended, appendChild. simpl.
    by rewrite <- app_assoc.
Qed.

Lemma aiMessagesAt_cons (item : Item) (rest : list Item) (i : nat) :
  aiMessagesAt (item :: rest) (S i) = aiMessagesAt rest i.
Proof. reflexivity. Qed.

(** The loop from [index] on: card [i] receives the messages of the entry
    that the loop visits with index [i], if there is one. *)
Lemma forEachResult_lookup (aiResults : list Item) (index : nat)
    (cards : list Card) (i : nat) :
  forEachResult aiResults index cards !! i =
  withAppended
    (if decide (index <= i) then aiMessagesAt aiResults (i - index) else [])
    <$> cards !! i.
Proof.
  revert index cards. induction aiResults as [|item rest IH];
    intros index cards; simpl.
  - replace (if decide (index <= i) then aiMessagesAt [] (i - index) else [])
      with (@nil string) by (by case_decide).
    destruct (cards !! i) as [card|]; simpl; [|done].
    by rewrite withAppended_nil.
  - rewrite IH. clear IH.
    match goal with
    | |- context [(if ?c then ?a else cards) !! i] =>
        set (cards' := if c then a else cards)
    end.
    destruct (decide (i = index)) as [->|Hne].
    + rewrite decide_False, decide_True by lia.
      rewrite Nat.sub_diag. change (aiMessagesAt (item :: rest) 0)
        with (aiMessagesOf item).
      assert (cards' !! index =
              withAppended (aiMessagesOf item) <$> cards !! index) as ->.
      { subst cards'. destruct (cards !! index) as [card|] eqn:Hcard.
        - destruct (aiMessagesOf item) as [|m ms] eqn:Hms; simpl.
          + rewrite Hcard. simpl. by rewrite withAppended_nil.
          + rewrite list_lookup_alter_eq, Hcard.
            cbn [fmap option_fmap option_map].
            by rewrite appendMessages_withAppended.
        - rewrite (bool_decide_false (is_Some None)) by apply is_Some_None.
          rewrite andb_false_r. by rewrite Hcard. }
      destruct (cards !! index) as [card|]; simpl; [|done].
      by rewrite withAppended_nil.
    + assert (cards' !! i = cards !! i) as ->.
      { subst cards'. case_match; [|done].
        by rewrite list_lookup_alter_ne. }
      f_equal. f_equal. repeat case_decide; try lia; [|done].
      replace (i - index) with (S (i - S index)) by lia.
      by rewrite aiMessagesAt_cons.
Qed.

Lemma forEachResult_length (aiResults : list Item) (index : nat)
    (cards : list Card) :
  length (forEachResult aiResults index cards) = length cards.
Proof.
  revert index cards. induction aiResults as [|item rest IH];
    intros index cards; simpl; [done|].
  rewrite IH. case_match; [apply length_alter|done].
Qed.

Lemma startsWith_iff (v prefix : string) :
  startsWith v prefix = true <-> exists rest, v = prefix +:+ rest.
Proof.
  unfold startsWith. revert v.
  induction prefix as [|a prefix IH]; intros v.
  - assert (String.prefix "" v = true) as -> by (by destruct v).
    split; [|done]. intros _. by exists v.
  - destruct v as [|b v]; simpl.
    + split; [done|]. intros [rest H]. by rewrite append_cons in H.
    + destruct (Ascii.ascii_dec a b) as [->|Hab].
      * rewrite IH. split; intros [rest H]; exists rest.
        -- by rewrite append_cons, H.
        -- rewrite append_cons in H. by injection H.
      * split; [done|]. intros [rest H]. rewrite append_cons in H.
        by injection H.
Qed.

(** The filter of the patch keeps exactly the AI-tagged messages. *)
Lemma aiMessagesOf_onlyTagged (item : Item) :
  onlyTagged (validations item) (aiMessagesOf item).
Proof.
  unfold aiMessagesOf. induction (validations item) as [|v vs IH];
    [constructor|].
  destruct (startsWith v AI_GLYPH) eqn:Hv.
  - rewrite filter_cons_True by (by apply Is_true_true).
    constructor; [|done]. by apply startsWith_iff.
  - rewrite filter_cons_False by (intros H; by rewrite Hv in H).
    constructor; [|done]. intros H. apply startsWith_iff in H.
    unfold AI_GLYPH in Hv. congruence.
Qed.

Lemma aiMessagesAt_onlyTagged (aiResults : list Item) (i : nat) :
  onlyTagged (validationsAt aiResults i) (aiMessagesAt aiResults i).
Proof.
  unfold validationsAt, aiMessagesAt.
  destruct (aiResults !! i); [apply aiMessagesOf_onlyTagged|constructor].
Qed.

Lemma onlyTagged_inj (vs kept kept' : list string) :
  onlyTagged vs kept -> onlyTagged vs kept' -> kept = kept'.
Proof.
  intros H. revert kept'. induction H; intros kept' H'; inversion H'; subst;
    try done; f_equal; auto.
Qed.

Lemma onlyTagged_elem (vs kept : list string) (v : string) :
  onlyTagged vs kept -> v ∈ vs -> aiTagged v -> v ∈ kept.
Proof.
  induction 1 as [|w vs kept Hw _ IH|w vs kept Hw _ IH]; intros Hin Hv.
  - by apply elem_of_nil in Hin.
  - apply elem_of_cons in Hin as [->|Hin]; [constructor|].
    constructor. by apply IH.
  - apply elem_of_cons in Hin as [->|Hin]; [done|]. by apply IH.
Qed.

(** The list item the code creates is the one that shows the message. *)
Lemma withAppended_aiItem (messages : list string) (card : Card) :
  withAppended messages card =
  {| data_index := data_index card;
     card_query := card_query card;
     validation_list := validation_list card ++ (aiItem <$> messages) |}.
Proof. reflexivity. Qed.

(** C7: patching keeps the number of cards; a card at index [i] ends up
    with its query and index, holding its own list items, in their order,
    followed by one new item of class [ai-msg] for each AI-tagged message
    of [aiResults[i]] (the messages that are the AI glyph followed by text),
    with that message as its text, in the order of the response; nothing is
    removed or reordered, and an index with no card gets nothing. *)
Theorem applyPerQueryInsights_additive (aiResults : list Item)
    (cards : list Card) :
  length (applyPerQueryInsights aiResults cards) = length cards /\
  (forall i card,
     cards !! i = Some card ->
     exists kept,
       onlyTagged (validationsAt aiResults i) kept /\
       applyPerQueryInsights aiResults cards !! i =
       Some {| data_index := data_index card;
               card_query := card_query card;
               validation_list := validation_list card ++ (aiItem <$> kept) |}) /\
  (forall i,
     cards !! i = None -> applyPerQueryInsights aiResults cards !! i = None).
Proof.
  split; [apply forEachResult_length|].
  assert (forall i, applyPerQueryInsights aiResults cards !! i =
                    withAppended (aiMessagesAt aiResults i) <$> cards !! i) as H.
  { intros i. unfold applyPerQueryInsights.
    rewrite forEachResult_lookup, decide_True by lia.
    by rewrite Nat.sub_0_r. }
  split.
  - intros i card Hcard. exists (aiMessagesAt aiResults i).
    split; [apply aiMessagesAt_onlyTagged|].
    by rewrite H, Hcard, <- withAppended_aiItem.
  - intros i Hnone. by rewrite H, Hnone.
Qed.

Lemma applyPerQueryInsights_additive_witness :
  let card := {| data_index := 0; card_query := "SELECT 1";
                 validation_list :=
                   [ {| className := "error";
                        li_content := InnerHTML "❌ syntax error";
                        li_opacity := None; li_transition := None |} ] |} in
  let item := {| query := "SELECT 1";
                 validations := ["❌ syntax error"; "🧠 Add an index";
                                 "✅ ok"; "🧠 Avoid SELECT *"] |} in
  [card] !! 0 = Some card /\
  (itemTexts <$> applyPerQueryInsights [item] [card] !! 0) =
    Some ["❌ syntax error"; "🧠 Add an index"; "🧠 Avoid SELECT *"] /\
  ((fun c => className <$> validation_list c)
     <$> applyPerQueryInsights [item] [card] !! 0) =
    Some ["error"; "ai-msg"; "ai-msg"].
Proof.
  intros card item. split; [reflexivity|].
  destruct (applyPerQueryInsights_additive [item] [card])
    as (_ & Happend & _).
  destruct (Happend 0 card eq_refl) as (kept & Hkept & ->).
  assert (kept = ["🧠 Add an index"; "🧠 Avoid SELECT *"]) as ->.
  { apply (onlyTagged_inj _ _ _ Hkept). unfold validationsAt. simpl.
    apply onlyTagged_skip; [by intros [rest [=]]|].
    apply onlyTagged_keep; [by eexists|].
    apply onlyTagged_skip; [by intros [rest [=]]|].
    apply onlyTagged_keep; [by eexists|]. constructor. }
  split; reflexivity.
Defined.

(** ** The tasks, path by path *)

Ltac js_unfold :=
  unfold pageAfter, effectsOf, resultOf, run, submitAndSettle, try_catch,
    write_report, write, assign, fetch, update, log, read, defined, throw,
    await, mbind, mret, Js_bind, Js_ret in *.

Ltac js := js_unfold; simpl in *.

(** Every path of the AI callbacks, once they are unfolded. *)
Ltac ai_paths outcome p browser :=
  let E := fresh "E" in
  destruct (validationOutput p) as [?|?r] eqn:E;
    destruct outcome as [| |?aiData]; simpl; rewrite ?E; simpl; try done;
    destruct (truthy (ai_error aiData)); simpl; rewrite ?E; simpl; try done;
    destruct (ai_data_summary aiData); simpl; rewrite ?E; simpl; try done;
    destruct (ai_data_results aiData) as [?rs|]; simpl; rewrite ?E; simpl;
      try done;
    match goal with
    | |- context [card_container ?r] =>
        destruct (card_container r) as [?cards|?srs]; simpl; try done
    end;
    case_bool_decide; simpl; try done;
    match goal with
    | |- context [patchRaises browser ?x ?y] =>
        destruct (patchRaises browser x y); simpl; try done
    end.

Section tasks.

Context (p : Page).

Lemma onSubmit_blocked (form : FormSnapshot) :
  lastFingerprint p = Some (currentFingerprint form) ->
  run (onSubmit form) p =
  (Normal None,
   {| page := with_duplicateWarning (fun _ => WARNING_SHOWN) p;
      trace := [Write "duplicateWarning" "style.display";
                Write "duplicateWarning" "innerText";
                Write "duplicateWarning" "innerText";
                Write "duplicateWarning" "style.display"] |}).
Proof.
  intros H. unfold onSubmit. js. rewrite H.
  by rewrite bool_decide_true.
Qed.

Lemma onSubmit_sent (form : FormSnapshot) :
  lastFingerprint p <> Some (currentFingerprint form) ->
  run (onSubmit form) p =
  (Normal (Some {| suspendedFingerprint := currentFingerprint form;
                   formData := form |}),
   {| page := validating p;
      trace := [Write "duplicateWarning" "style.display";
                Write "duplicateWarning" "innerText";
                Write "topDownloadBtn" "style.display";
                Write "topDownloadBtn" "onclick";
                Write "results" "style.display";
                Write "validationOutput" "innerHTML";
                Fetch "/validate" form] |}).
Proof.
  intros H. unfold onSubmit. js.
  by rewrite bool_decide_false.
Qed.

Lemma onStaticSettled_raised (k : Suspended) (outcome : StaticOutcome) :
  transportFailure outcome ->
  run (onStaticSettled k outcome) p =
  (Normal (),
   {| page := with_validationOutput GENERIC_ERROR p;
      trace := [Write "validationOutput" "innerHTML"] |}).
Proof. by intros [-> | ->]. Qed.

Lemma onStaticSettled_error (k : Suspended) (data : ValidationResponse)
    (message : string) :
  truthy (error data) = Some message ->
  run (onStaticSettled k (Decoded data)) p =
  (Normal (),
   {| page := with_validationOutput (Paragraph (Some "error") message) p;
      trace := [Write "validationOutput" "innerHTML"] |}).
Proof. intros H. unfold onStaticSettled. js. by rewrite H. Qed.

Lemma onStaticSettled_rendered (k : Suspended) (data : ValidationResponse)
    (s : Summary) (rs : list Item) :
  truthy (error data) = None ->
  summary data = Some s -> results data = Some rs ->
  run (onStaticSettled k (Decoded data)) p =
  (Normal (),
   {| page :=
        {| lastFingerprint := Some (suspendedFingerprint k);
           duplicateWarning := duplicateWarning p;
           results_display := results_display p;
           validationOutput := Rendered (renderStatic s rs);
           topDownloadBtn :=
             match truthy (pdf_url data) with
             | Some url => ARMED url
             | None => topDownloadBtn p
             end |};
      trace :=
        [Assign "lastFingerprint"; Write "validationOutput" "innerHTML"]
        ++ match truthy (pdf_url data) with
           | Some url => [Write "topDownloadBtn" "style.display";
                          Write "topDownloadBtn" "onclick"]
           | None => []
           end
        ++ [Fetch "/analyze_ai" (formData k)] |}).
Proof.
  intros H Hs Hrs. unfold onStaticSettled. js. rewrite H, Hs, Hrs. simpl.
  by destruct (truthy (pdf_url data)).
Qed.

(** A decoded response without [error] that lacks [summary] or [results]:
    the render raises after the fingerprint was assigned. *)
Lemma onStaticSettled_render_raises (k : Suspended) (data : ValidationResponse) :
  truthy (error data) = None ->
  summary data = None \/ results data = None ->
  run (onStaticSettled k (Decoded data)) p =
  (Normal (),
   {| page := with_validationOutput GENERIC_ERROR
                (with_lastFingerprint (Some (suspendedFingerprint k)) p);
      trace := [Assign "lastFingerprint";
                Write "validationOutput" "innerHTML"] |}).
Proof.
  intros H Hshape. unfold onStaticSettled. js. rewrite H.
  destruct (summary data), (results data); simpl; by destruct Hshape.
Qed.

End tasks.

Section ai_tasks.

Context (browser : Browser) (p : Page) (r : Report).
Hypothesis report_on_screen : validationOutput p = Rendered r.

Lemma onAISettled_raised (outcome : AIOutcome) :
  aiTransportFailure outcome ->
  run (onAISettled browser outcome) p =
  (Normal (),
   {| page := with_validationOutput
                (Rendered (with_loading
                   (with_loading_children (LoadingText "")) r)) p;
      trace := [ConsoleError; Write "ai-loading-container" "innerText"] |}).
Proof.
  intros [-> | ->]; unfold onAISettled, onAIError; js;
    by rewrite report_on_screen.
Qed.

Lemma onAISettled_error (aiData : AIResponse) (message : string) :
  truthy (ai_error aiData) = Some message ->
  run (onAISettled browser (AIDecoded aiData)) p =
  (Normal (),
   {| page := with_validationOutput
                (Rendered (with_loading
                   (with_loading_children
                      (RedParagraph ("AI Analysis failed: " +:+ message))) r)) p;
      trace := [ConsoleError; Write "ai-loading-container" "innerHTML"] |}).
Proof.
  intros H. unfold onAISettled, onAIData, patchCards, onAIError. js.
  rewrite H. simpl. by rewrite report_on_screen.
Qed.


End ai_tasks.

(** A submission that passed the guard resumes on the page it left. *)
Lemma submitAndSettle_sent (form : FormSnapshot) (outcome : StaticOutcome)
    (p0 : Page) :
  lastFingerprint p0 <> Some (currentFingerprint form) ->
  pageAfter (submitAndSettle form outcome) p0 =
  pageAfter (onStaticSettled
               {| suspendedFingerprint := currentFingerprint form;
                  formData := form |} outcome) (validating p0).
Proof.
  intros H. unfold pageAfter, submitAndSettle, run, onSubmit, onStaticSettled.
  js. rewrite bool_decide_false by done. simpl.
  destruct outcome as [| |data]; simpl; [done..|].
  destruct (truthy (error data)); simpl; [done|].
  destruct (summary data); simpl; [|done].
  destruct (results data); simpl; [|done].
  by destruct (truthy (pdf_url data)).
Qed.

(** The fingerprint after the resumed handler: assigned exactly when the
    response was decoded and carries no error. *)
Lemma onStaticSettled_lastFingerprint (k : Suspended) (outcome : StaticOutcome)
    (p : Page) :
  lastFingerprint (pageAfter (onStaticSettled k outcome) p) =
  match outcome with
  | Decoded data =>
      match truthy (error data) with
      | Some _ => lastFingerprint p
      | None => Some (suspendedFingerprint k)
      end
  | _ => lastFingerprint p
  end.
Proof.
  unfold onStaticSettled. js.
  destruct outcome as [| |data]; simpl; [done..|].
  destruct (truthy (error data)); simpl; [done|].
  destruct (summary data); simpl; [|done].
  destruct (results data); simpl; [|done].
  by destruct (truthy (pdf_url data)).
Qed.

Lemma staticFailed_lastFingerprint (k : Suspended) (outcome : StaticOutcome)
    (p : Page) :
  staticFailed outcome ->
  lastFingerprint (pageAfter (onStaticSettled k outcome) p) = lastFingerprint p.
Proof.
  rewrite onStaticSettled_lastFingerprint.
  intros [[-> | ->] | (data & message & -> & ->)]; done.
Qed.

(** ** Transport failure of the static phase *)

(** C2: when the network call of the static phase raises ([fetch] rejects,
    or the body is malformed and [response.json()] rejects), the resumed
    handler writes the generic error into the output and does nothing else:
    [lastFingerprint] and every other part of the page are as before, and
    the same form submitted again passes the guard and is sent. *)
Theorem static_transport_failure (outcome : StaticOutcome) :
  transportFailure outcome ->
  (forall (k : Suspended) (p : Page),
     resultOf (onStaticSettled k outcome) p = Normal () /\
     pageAfter (onStaticSettled k outcome) p =
       with_validationOutput GENERIC_ERROR p /\
     lastFingerprint (pageAfter (onStaticSettled k outcome) p) =
       lastFingerprint p /\
     effectsOf (onStaticSettled k outcome) p =
       [Write "validationOutput" "innerHTML"]) /\
  (forall (form : FormSnapshot) (p0 : Page),
     lastFingerprint p0 <> Some (currentFingerprint form) ->
     let p2 := pageAfter (submitAndSettle form outcome) p0 in
     lastFingerprint p2 = lastFingerprint p0 /\
     validationOutput p2 = GENERIC_ERROR /\
     resultOf (onSubmit form) p2 =
       Normal (Some {| suspendedFingerprint := currentFingerprint form;
                       formData := form |}) /\
     Fetch "/validate" form ∈ effectsOf (onSubmit form) p2).
Proof.
  intros Hfail. split.
  - intros k p. unfold resultOf, pageAfter, effectsOf.
    by rewrite onStaticSettled_raised.
  - intros form p0 Hsent p2.
    assert (p2 = with_validationOutput GENERIC_ERROR (validating p0)) as ->.
    { subst p2. rewrite submitAndSettle_sent by done.
      unfold pageAfter. by rewrite onStaticSettled_raised. }
    split; [done|]. split; [done|].
    unfold resultOf, effectsOf. rewrite onSubmit_sent by done.
    split; [done|]. simpl. repeat constructor.
Qed.

Lemma static_transport_failure_witness :
  transportFailure JsonRejected /\
  lastFingerprint pageLoaded <> Some (currentFingerprint formScenario) /\
  lastFingerprint (pageAfter (submitAndSettle formScenario JsonRejected) pageLoaded)
    = lastFingerprint pageLoaded /\
  validationOutput (pageAfter (submitAndSettle formScenario JsonRejected) pageLoaded)
    = GENERIC_ERROR.
Proof.
  assert (transportFailure JsonRejected) as Hfail by (right; reflexivity).
  assert (lastFingerprint pageLoaded <> Some (currentFingerprint formScenario))
    as Hsent by discriminate.
  destruct (static_transport_failure JsonRejected Hfail) as [_ Hretry].
  destruct (Hretry formScenario pageLoaded Hsent) as (H1 & H2 & _).
  split; [exact Hfail|]. split; [exact Hsent|].
  split; [exact H1|exact H2].
Defined.

(** ** The duplicate guard *)

(** C3: after a submission that was sent and whose static response was
    decoded without error, a submit with an equal fingerprint is stopped by
    the guard: the warning is shown and no request is issued.  After a
    submission that failed (the call raised, or the response carries an
    error), a submit with an equal fingerprint passes the guard and is
    sent. *)
Theorem duplicate_guard (form : FormSnapshot) (p0 : Page) :
  lastFingerprint p0 <> Some (currentFingerprint form) ->
  (forall (data : ValidationResponse) (form' : FormSnapshot),
     truthy (error data) = None ->
     currentFingerprint form' = currentFingerprint form ->
     let p2 := pageAfter (submitAndSettle form (Decoded data)) p0 in
     lastFingerprint p2 = Some (currentFingerprint form) /\
     resultOf (onSubmit form') p2 = Normal None /\
     duplicateWarning (pageAfter (onSubmit form') p2) = WARNING_SHOWN /\
     (forall url body, Fetch url body ∉ effectsOf (onSubmit form') p2)) /\
  (forall (outcome : StaticOutcome) (form' : FormSnapshot),
     staticFailed outcome ->
     currentFingerprint form' = currentFingerprint form ->
     let p2 := pageAfter (submitAndSettle form outcome) p0 in
     lastFingerprint p2 = lastFingerprint p0 /\
     resultOf (onSubmit form') p2 =
       Normal (Some {| suspendedFingerprint := currentFingerprint form';
                       formData := form' |}) /\
     Fetch "/validate" form' ∈ effectsOf (onSubmit form') p2).
Proof.
  intros Hsent. split.
  - intros data form' Hok Hfp p2.
    assert (lastFingerprint p2 = Some (currentFingerprint form')) as Hlast.
    { subst p2. rewrite submitAndSettle_sent by done.
      rewrite onStaticSettled_lastFingerprint, Hok. simpl. by rewrite Hfp. }
    split; [by rewrite Hlast, Hfp|].
    unfold resultOf, pageAfter, effectsOf. rewrite onSubmit_blocked by done.
    simpl. split; [done|]. split; [done|].
    intros url body Hin.
    repeat (apply elem_of_cons in Hin as [Hin|Hin]; [discriminate|]).
    by apply elem_of_nil in Hin.
  - intros outcome form' Hfailed Hfp p2.
    assert (lastFingerprint p2 = lastFingerprint p0) as Hlast.
    { subst p2. rewrite submitAndSettle_sent by done.
      by rewrite staticFailed_lastFingerprint. }
    split; [done|].
    unfold resultOf, effectsOf.
    rewrite onSubmit_sent by (rewrite Hlast, Hfp; done).
    split; [done|]. simpl. repeat constructor.
Qed.

Lemma duplicate_guard_witness :
  lastFingerprint pageLoaded <> Some (currentFingerprint formScenario) /\
  resultOf (onSubmit formScenario) pageRendered = Normal None /\
  resultOf (onSubmit formScenario)
    (pageAfter (submitAndSettle formScenario FetchRejected) pageLoaded) =
    Normal (Some {| suspendedFingerprint := currentFingerprint formScenario;
                    formData := formScenario |}).
Proof.
  assert (lastFingerprint pageLoaded <> Some (currentFingerprint formScenario))
    as Hsent by discriminate.
  destruct (duplicate_guard formScenario pageLoaded Hsent) as [Hok Hfailed].
  split; [exact Hsent|]. split.
  - apply (Hok responseScenario formScenario); reflexivity.
  - apply (Hfailed FetchRejected formScenario); [|reflexivity].
    left. left. reflexivity.
Defined.

(** C10: a submit stopped by the guard changes the duplicate warning and
    nothing else: the fingerprint, the output with the rendered results, the
    results panel and the download control with its binding are as before,
    and every write of the task goes to the warning element. *)
Theorem blocked_submit_frame (form : FormSnapshot) (p : Page) :
  lastFingerprint p = Some (currentFingerprint form) ->
  resultOf (onSubmit form) p = Normal None /\
  pageAfter (onSubmit form) p =
    with_duplicateWarning (fun _ => WARNING_SHOWN) p /\
  lastFingerprint (pageAfter (onSubmit form) p) = lastFingerprint p /\
  validationOutput (pageAfter (onSubmit form) p) = validationOutput p /\
  results_display (pageAfter (onSubmit form) p) = results_display p /\
  topDownloadBtn (pageAfter (onSubmit form) p) = topDownloadBtn p /\
  Forall (fun e => exists property, e = Write "duplicateWarning" property)
    (effectsOf (onSubmit form) p).
Proof.
  intros H. unfold resultOf, pageAfter, effectsOf.
  rewrite onSubmit_blocked by done. simpl.
  repeat split. repeat constructor; eauto.
Qed.

Lemma blocked_submit_frame_witness :
  lastFingerprint pageRendered = Some (currentFingerprint formScenario) /\
  topDownloadBtn (pageAfter (onSubmit formScenario) pageRendered) =
    ARMED "/r/1.pdf" /\
  duplicateWarning (pageAfter (onSubmit formScenario) pageRendered) =
    WARNING_SHOWN.
Proof.
  assert (lastFingerprint pageRendered = Some (currentFingerprint formScenario))
    as Hlast by reflexivity.
  destruct (blocked_submit_frame formScenario pageRendered Hlast)
    as (_ & Hpage & _ & _ & _ & Hbtn & _).
  split; [exact Hlast|]. split.
  - rewrite Hbtn. reflexivity.
  - rewrite Hpage. reflexivity.
Defined.

(** ** The download control *)

(** The resumed handler arms the control on one path only. *)
Lemma onStaticSettled_button (k : Suspended) (outcome : StaticOutcome) (p : Page) :
  topDownloadBtn (pageAfter (onStaticSettled k outcome) p) =
  match outcome with
  | Decoded data =>
      match truthy (error data), summary data, results data,
            truthy (pdf_url data) with
      | None, Some _, Some _, Some url => ARMED url
      | _, _, _, _ => topDownloadBtn p
      end
  | _ => topDownloadBtn p
  end.
Proof.
  unfold onStaticSettled. js.
  destruct outcome as [| |data]; simpl; [done..|].
  destruct (truthy (error data)); simpl; [done|].
  destruct (summary data); simpl; [|done].
  destruct (results data); simpl; [|done].
  by destruct (truthy (pdf_url data)).
Qed.

Lemma truthy_Some (x : option string) (s : string) :
  truthy x = Some s -> x = Some s.
Proof.
  destruct x as [t|]; simpl; [|done]. by case_decide; intros [= ->].
Qed.

(** The callbacks of the AI promise leave the control alone, on every
    path and on every page. *)
Lemma onAISettled_button (browser : Browser) (outcome : AIOutcome) (p : Page) :
  topDownloadBtn (pageAfter (onAISettled browser outcome) p) = topDownloadBtn p /\
  lastFingerprint (pageAfter (onAISettled browser outcome) p) = lastFingerprint p.
Proof.
  unfold onAISettled, onAIData, patchCards, onAIError. js.
  ai_paths outcome p browser.
Qed.




(** ** Order of the effects of a successful static phase *)



(** ** Failure of the AI phase *)

(** C4, as the code has it: with a rendered report on the page, when the
    AI call raises the children of the placeholder are replaced by empty
    text, and when the decoded AI response carries an error they are
    replaced by the paragraph "AI Analysis failed: " followed by the error;
    in both cases the summary, the cards, the fingerprint and the download
    control are as the static phase left them. *)
Theorem ai_failure_frame (browser : Browser) (p : Page) (r : Report) :
  validationOutput p = Rendered r ->
  (forall outcome, aiTransportFailure outcome ->
     pageAfter (onAISettled browser outcome) p =
       with_validationOutput
         (Rendered (with_loading (with_loading_children (LoadingText "")) r)) p) /\
  (forall aiData message, truthy (ai_error aiData) = Some message ->
     pageAfter (onAISettled browser (AIDecoded aiData)) p =
       with_validationOutput
         (Rendered (with_loading
            (with_loading_children
               (RedParagraph ("AI Analysis failed: " +:+ message))) r)) p) /\
  (forall outcome, aiFailed outcome ->
     exists r',
       validationOutput (pageAfter (onAISettled browser outcome) p) = Rendered r' /\
       validation_summary r' = validation_summary r /\
       card_container r' = card_container r /\
       ai_summary_container r' = ai_summary_container r /\
       lastFingerprint (pageAfter (onAISettled browser outcome) p) = lastFingerprint p /\
       topDownloadBtn (pageAfter (onAISettled browser outcome) p) = topDownloadBtn p).
Proof.
  intros Hr.
  assert (forall outcome, aiTransportFailure outcome ->
    pageAfter (onAISettled browser outcome) p =
      with_validationOutput
        (Rendered (with_loading (with_loading_children (LoadingText "")) r)) p)
    as Hraised.
  { intros outcome H. unfold pageAfter.
    by rewrite (onAISettled_raised browser p r Hr outcome H). }
  assert (forall aiData message, truthy (ai_error aiData) = Some message ->
    pageAfter (onAISettled browser (AIDecoded aiData)) p =
      with_validationOutput
        (Rendered (with_loading
           (with_loading_children
              (RedParagraph ("AI Analysis failed: " +:+ message))) r)) p)
    as Herror.
  { intros aiData message H. unfold pageAfter.
    by rewrite (onAISettled_error browser p r Hr aiData message H). }
  split; [done|]. split; [done|].
  intros outcome [H | (aiData & message & -> & H)].
  - rewrite (Hraised outcome H). eexists. by repeat split.
  - rewrite (Herror aiData message H). eexists. by repeat split.
Qed.

Lemma ai_failure_frame_witness :
  validationOutput pageRendered =
    Rendered (renderStatic {| total := 1; passed := 0; failed := 1 |}
                [ {| query := "SELECT 1"; validations := ["❌ syntax error"] |} ]) /\
  cardMessages (pageAfter
    (onAISettled lenientBrowser (AIDecoded {| ai_error := Some "model timeout";
                               ai_data_summary := None;
                               ai_data_results := None |})) pageRendered) =
    [["❌ syntax error"]].
Proof.
  split; [reflexivity|].
  destruct (ai_failure_frame lenientBrowser pageRendered _ eq_refl) as (_ & Herror & _).
  rewrite (Herror {| ai_error := Some "model timeout";
                     ai_data_summary := None;
                     ai_data_results := None |} "model timeout" eq_refl).
  reflexivity.
Defined.

(** C4 as stated fails for the raising call: after it the placeholder
    holds no text at all, so no failure notice is on the page. *)
Lemma ai_raise_shows_no_notice :
  aiTransportFailure AIFetchRejected /\
  ~ (exists notice : string,
       notice <> "" /\
       placeholderText (pageAfter (onAISettled lenientBrowser AIFetchRejected) pageRendered)
         = Some notice).
Proof.
  split; [by left|]. intros (notice & Hne & H).
  vm_compute in H. congruence.
Qed.

(** ** Messages that are already on the card *)

(** Every message the patch appends is AI-tagged. *)
Lemma aiMessagesAt_tagged (aiResults : list Item) (i : nat) :
  Forall (fun msg => startsWith msg AI_GLYPH = true) (aiMessagesAt aiResults i).
Proof.
  unfold aiMessagesAt, aiMessagesOf.
  destruct (aiResults !! i) as [item|]; [|constructor].
  apply Forall_forall. intros msg Hin.
  apply list_elem_of_filter in Hin as [Htag _].
  by apply Is_true_true.
Qed.

(** C8 fails on the code: the static response already holds an AI-tagged
    message for the query, the AI response holds the same message, and the
    patch appends it to the card a second time. *)
Theorem patch_appends_rendered_message_again (browser : Browser) :
  cardMessages
    (pageAfter (submitAndSettle formScenario (Decoded responseWithInsight))
       pageLoaded) =
    [["🧠 Consider an index"]] /\
  cardMessages
    (pageAfter (onAISettled browser (AIDecoded aiResponseSameInsight))
       (pageAfter (submitAndSettle formScenario (Decoded responseWithInsight))
          pageLoaded)) =
    [["🧠 Consider an index"; "🧠 Consider an index"]].
Proof. split; reflexivity. Qed.

(** ** The scenarios of the specification *)

Example scenario_success :
  let p := pageAfter (submitAndSettle formScenario (Decoded responseScenario))
             pageLoaded in
  lastFingerprint p = Some "A|a@x.com|T|CR1|q.sql|10|1000" /\
  topDownloadBtn p = ARMED "/r/1.pdf" /\
  (exists r, validationOutput p = Rendered r /\
     validation_summary r = {| total := 1; passed := 0; failed := 1 |}) /\
  cardClasses p = [["error"]] /\
  resultOf (onSubmit formScenario) p = Normal None /\
  effectsOf (onSubmit formScenario) p =
    [Write "duplicateWarning" "style.display";
     Write "duplicateWarning" "innerText";
     Write "duplicateWarning" "innerText";
     Write "duplicateWarning" "style.display"].
Proof. repeat split. eexists. repeat split. Qed.

Example scenario_error_response :
  let response := {| error := Some "empty file"; summary := None;
                     results := None; pdf_url := None |} in
  let p := pageAfter (submitAndSettle formScenario (Decoded response))
             pageLoaded in
  validationOutput p = Paragraph (Some "error") "empty file" /\
  topDownloadBtn p = DISARMED /\
  lastFingerprint p = None /\
  resultOf (onSubmit formScenario) p =
    Normal (Some {| suspendedFingerprint := currentFingerprint formScenario;
                    formData := formScenario |}).
Proof. repeat split. Qed.

Example scenario_ai_error :
  let aiData := {| ai_error := Some "model timeout"; ai_data_summary := None;
                   ai_data_results := None |} in
  let p := pageAfter (onAISettled lenientBrowser (AIDecoded aiData)) pageRendered in
  placeholderText p = Some "AI Analysis failed: model timeout" /\
  cardMessages p = cardMessages pageRendered.
Proof. repeat split. Qed.

(** ** The download control across interleaved tasks *)

Lemma onSubmit_button (form : FormSnapshot) (p : Page) :
  topDownloadBtn (pageAfter (onSubmit form) p) = topDownloadBtn p \/
  topDownloadBtn (pageAfter (onSubmit form) p) = DISARMED.
Proof.
  destruct (decide (lastFingerprint p = Some (currentFingerprint form))) as [H|H].
  - left. unfold pageAfter. by rewrite onSubmit_blocked.
  - right. unfold pageAfter. by rewrite onSubmit_sent.
Qed.

(** One task binds the control to a url only when it is the resumption of
    a submit handler with a decoded response that carries no error and
    supplies that url. *)
Lemma dispatch_onclick (browser : Browser) (l l' : Loop) (e : Event) (url : string) :
  dispatch browser l e = Some l' ->
  onclick (topDownloadBtn (current l')) = Some url ->
  onclick (topDownloadBtn (current l)) = Some url \/
  exists i data,
    e = StaticSettled i (Decoded data) /\
    truthy (error data) = None /\ pdf_url data = Some url.
Proof.
  destruct e as [|form|i outcome|i outcome]; simpl.
  - intros [= <-]. by left.
  - intros [= <-]. simpl.
    destruct (onSubmit_button form (current l)) as [-> | ->]; [by left|done].
  - destruct (suspended l !! i) as [k|]; simpl; [|done].
    intros [= <-]. simpl. rewrite onStaticSettled_button.
    destruct outcome as [| |data]; [by left..|].
    destruct (truthy (error data)) eqn:He; [by left|].
    destruct (summary data); [|by left].
    destruct (results data); [|by left].
    destruct (truthy (pdf_url data)) as [u|] eqn:Hu; [|by left].
    intros [= ->]. right. exists i, data. eauto using truthy_Some.
  - destruct (aiPending l !! i); simpl; [|done].
    intros [= <-]. simpl.
    destruct (onAISettled_button browser outcome (current l)) as [-> _]. by left.
Qed.

(** However the tasks interleave, a url bound to the download control was
    bound when the run began or was supplied as [pdf_url] by a decoded
    static response without error that settled during the run. *)
Theorem download_gate_invariant (browser : Browser) (events : list Event) (l l' : Loop) (url : string) :
  dispatchAll browser l events = Some l' ->
  onclick (topDownloadBtn (current l')) = Some url ->
  onclick (topDownloadBtn (current l)) = Some url \/
  exists i data,
    StaticSettled i (Decoded data) ∈ events /\
    truthy (error data) = None /\ pdf_url data = Some url.
Proof.
  revert l. induction events as [|e events IH]; intros l; simpl.
  - intros [= <-]. by left.
  - destruct (dispatch browser l e) as [l1|] eqn:Hstep; simpl; [|done].
    intros Hrun Hurl.
    destruct (IH l1 Hrun Hurl) as [H1 | (i & data & Hin & Hrest)].
    + destruct (dispatch_onclick browser l l1 e url Hstep H1)
        as [H0 | (i & data & -> & Hrest)]; [by left|].
      right. exists i, data. split; [constructor|done].
    + right. exists i, data. split; [by constructor|done].
Qed.

(** The submit handler does not wait for the AI request: after its static
    phase has settled the request is pending, no handler is suspended, and
    the loop runs other tasks before the AI response arrives. *)
Example ai_request_is_detached :
  let l1 := dispatchAll lenientBrowser (loaded pageLoaded)
              [Submitted formScenario;
               StaticSettled 0 (Decoded responseScenario)] in
  (suspended <$> l1) = Some [] /\
  (aiPending <$> l1) = Some [formScenario] /\
  (placeholderText ∘ current <$> l1) = Some (Some (loadingText Thinking)) /\
  (exists l3,
     dispatchAll lenientBrowser (loaded pageLoaded)
       [Submitted formScenario;
        StaticSettled 0 (Decoded responseScenario);
        Submitted formScenario;
        InputChanged;
        AISettled 0 AIFetchRejected] = Some l3 /\
     aiPending l3 = [] /\ placeholderText (current l3) = Some "").
Proof. repeat split. eexists. repeat split. Qed.

(** * Further properties of the script *)

(** ** Fingerprint: the file entries *)

(** Whatever the text inputs and the file name hold, the last two entries
    of a fingerprint are read back from its end. *)
Lemma join7_last_two (v1 v2 v3 v4 v5 v6 v7 w1 w2 w3 w4 w5 w6 w7 : value) :
  includes (ToString v6) "|" = false -> includes (ToString v7) "|" = false ->
  includes (ToString w6) "|" = false -> includes (ToString w7) "|" = false ->
  join [v1; v2; v3; v4; v5; v6; v7] separator =
  join [w1; w2; w3; w4; w5; w6; w7] separator ->
  ToString v6 = ToString w6 /\ ToString v7 = ToString w7.
Proof.
  intros H6 H7 H6' H7' E. rewrite !join7 in E.
  rewrite <- !append_cons, !String_app_assoc in E.
  apply split_right in E as [E ->]; [|done..].
  apply split_right in E as [_ ->]; done.
Qed.

(** X1: two forms with the same fingerprint agree on whether a file is
    selected and on the size and the modification time of that file, with
    no condition on the text inputs or on the file name. *)
Theorem fingerprint_determines_file_numbers (a b : FormSnapshot) :
  currentFingerprint a = currentFingerprint b ->
  file_size <$> head (files a) = file_size <$> head (files b) /\
  file_lastModified <$> head (files a) = file_lastModified <$> head (files b).
Proof.
  unfold currentFingerprint, components. intros E.
  assert (forall o : option File,
    let s := match o with
             | Some f => VNumber (Z.of_N (file_size f)) | None => VString "" end in
    let l := match o with
             | Some f => VNumber (file_lastModified f) | None => VString "" end in
    (s = VString "" \/ exists z, s = VNumber z) /\
    (l = VString "" \/ exists z, l = VNumber z)) as Hshape.
  { intros [f|]; simpl; split; eauto. }
  destruct (Hshape (head (files a))) as [Hsa Hla].
  destruct (Hshape (head (files b))) as [Hsb Hlb].
  apply join7_last_two in E as [Es El];
    [|by apply ToString_file_includes..].
  apply ToString_file_inj in Es; [|done..].
  apply ToString_file_inj in El; [|done..].
  destruct (head (files a)) as [fa|], (head (files b)) as [fb|];
    simpl in *; try done.
  injection Es as Es. injection El as ->. apply (inj Z.of_N) in Es as ->. done.
Qed.

Lemma fingerprint_determines_file_numbers_witness :
  currentFingerprint formPipeInName = currentFingerprint formPipeInEmail /\
  file_size <$> head (files formPipeInName) =
    file_size <$> head (files formPipeInEmail) /\
  file_lastModified <$> head (files formPipeInName) =
    file_lastModified <$> head (files formPipeInEmail).
Proof.
  split; [reflexivity|].
  exact (fingerprint_determines_file_numbers formPipeInName formPipeInEmail
           eq_refl).
Defined.

(** ** Classification: the glyphs exclude each other *)

Lemma prefix_nil_l (s : string) : String.prefix "" s = true.
Proof. by destruct s. Qed.

(** Two prefixes of one string are prefixes of each other, one way or the
    other. *)
Lemma prefix_both (p q v : string) :
  String.prefix p v = true -> String.prefix q v = true ->
  String.prefix p q = true \/ String.prefix q p = true.
Proof.
  revert p q. induction v as [|c v IH]; intros [|a p] [|b q] Hp Hq;
    rewrite ?prefix_nil_l; auto; simpl in *; try done.
  destruct (Ascii.ascii_dec a c) as [->|]; [|done].
  destruct (Ascii.ascii_dec b c) as [->|]; [|done].
  destruct (Ascii.ascii_dec c c); [|done]. by apply IH.
Qed.

Lemma startsWith_exclusive (v p q : string) :
  startsWith p q = false -> startsWith q p = false ->
  startsWith v p && startsWith v q = false.
Proof.
  unfold startsWith. intros Hpq Hqp.
  destruct (String.prefix p v) eqn:Hp, (String.prefix q v) eqn:Hq; try done.
  destruct (prefix_both p q v Hp Hq); congruence.
Qed.

(** X2: no message begins with two of the three glyphs, so the order in
    which [cls] tests them does not change the class. *)
Theorem glyphs_exclusive (v : string) :
  startsWith v FAILURE_GLYPH && startsWith v WARNING_GLYPH = false /\
  startsWith v FAILURE_GLYPH && startsWith v AI_GLYPH = false /\
  startsWith v WARNING_GLYPH && startsWith v AI_GLYPH = false.
Proof. repeat split; by apply startsWith_exclusive. Qed.

Lemma cls_ai_tagged (msg : string) :
  startsWith msg AI_GLYPH = true -> cls msg = "ai-msg".
Proof.
  intros H.
  pose proof (startsWith_exclusive msg FAILURE_GLYPH AI_GLYPH eq_refl eq_refl) as H1.
  pose proof (startsWith_exclusive msg WARNING_GLYPH AI_GLYPH eq_refl eq_refl) as H2.
  rewrite H, andb_true_r in H1, H2. unfold cls. by rewrite H1, H2, H.
Qed.

(** X3: every list item the patch creates has the class the static render
    gives to the same message. *)
Theorem createLi_class_agrees (item : Item) :
  Forall (fun msg => className (createLi msg) = cls msg) (aiMessagesOf item).
Proof.
  apply Forall_forall. intros msg Hin. unfold aiMessagesOf in Hin.
  apply list_elem_of_filter in Hin as [Htag _].
  apply Is_true_true in Htag. by rewrite cls_ai_tagged.
Qed.

(** X4: the later revision changes the class of exactly the AI-tagged
    messages: the earlier revisions gave them [success], the later one
    gives them [ai-msg]; every other message keeps the class the earlier
    revisions gave it. *)
Theorem cls_revision (v : string) :
  if startsWith v AI_GLYPH
  then cls_v1 v = "success" /\ cls v = "ai-msg"
  else cls v = cls_v1 v.
Proof.
  destruct (startsWith v AI_GLYPH) eqn:H.
  - split; [|by apply cls_ai_tagged].
    pose proof (startsWith_exclusive v FAILURE_GLYPH AI_GLYPH eq_refl eq_refl) as H1.
    pose proof (startsWith_exclusive v WARNING_GLYPH AI_GLYPH eq_refl eq_refl) as H2.
    rewrite H, andb_true_r in H1, H2. unfold cls_v1. by rewrite H1, H2.
  - unfold cls, cls_v1. by rewrite H.
Qed.

(** ** The static render keeps the order of the response *)

Lemma mapM_renderLi (vs : list string) :
  forallb markupFree vs = true ->
  exists items,
    mapM renderLi vs = Some items /\
    (fun li => textOf (li_content li)) <$> items = vs /\
    className <$> items = cls <$> vs.
Proof.
  induction vs as [|v vs IH]; simpl.
  - intros _. by exists [].
  - intros [Hv Hvs]%andb_true_iff. destruct (IH Hvs) as (items & -> & Ht & Hc).
    unfold renderLi. rewrite Hv. simpl. eexists. split; [done|].
    rewrite !fmap_cons. cbn [className li_content textOf]. by rewrite Ht, Hc.
Qed.

Lemma renderCards_markupFree (index : nat) (rs : list Item) :
  markupFreeResults rs = true ->
  exists cards,
    renderCards index rs = Some cards /\
    itemTexts <$> cards = validations <$> rs /\
    data_index <$> cards = seq index (length rs) /\
    card_query <$> cards = query <$> rs /\
    (fun card => className <$> validation_list card) <$> cards =
      (fun item => cls <$> validations item) <$> rs.
Proof.
  revert index. induction rs as [|item rs IH]; intros index; simpl.
  - intros _. by exists [].
  - intros [[Hq Hvs]%andb_true_iff Hrs]%andb_true_iff.
    destruct (IH (S index) Hrs) as (cards & -> & Ht & Hi & Hqs & Hc).
    destruct (mapM_renderLi _ Hvs) as (items & Hitems & Hit & Hic).
    unfold renderCard. rewrite Hq, Hitems. simpl. eexists. split; [done|].
    rewrite !fmap_cons. unfold itemTexts at 1.
    cbn [data_index card_query validation_list seq].
    by rewrite Hit, Hic, Ht, Hi, Hqs, Hc.
Qed.

Lemma renderLi_Some (v : string) (li : Li) :
  renderLi v = Some li -> markupFree v = true.
Proof. unfold renderLi. by destruct (markupFree v). Qed.

Lemma mapM_renderLi_Some (vs : list string) (items : list Li) :
  mapM renderLi vs = Some items -> forallb markupFree vs = true.
Proof.
  revert items. induction vs as [|v vs IH]; intros items H; [done|].
  simpl in *. destruct (renderLi v) as [li|] eqn:Hli; [|done].
  destruct (mapM renderLi vs) as [items'|] eqn:Hitems; [|done].
  rewrite (renderLi_Some _ _ Hli). simpl. by apply (IH items').
Qed.

Lemma renderCard_Some (index : nat) (item : Item) (card : Card) :
  renderCard index item = Some card -> markupFreeItem item = true.
Proof.
  unfold renderCard, markupFreeItem.
  destruct (markupFree (query item)); [|done].
  destruct (mapM renderLi (validations item)) as [items|] eqn:Hitems; [|done].
  intros _. simpl. by apply (mapM_renderLi_Some _ items).
Qed.

Lemma renderCards_Some (index : nat) (rs : list Item) (cards : list Card) :
  renderCards index rs = Some cards -> markupFreeResults rs = true.
Proof.
  revert index cards. induction rs as [|item rs IH]; intros index cards H;
    [done|].
  simpl in *. destruct (renderCard index item) as [card|] eqn:Hcard; [|done].
  destruct (renderCards (S index) rs) as [cards'|] eqn:Hcards; [|done].
  rewrite (renderCard_Some _ _ _ Hcard). simpl. by apply (IH (S index) cards').
Qed.

(** X5: when no query and no message of the response holds markup, the
    static render has one card per result, in the order of the response:
    card [i] has [data-index] [i], shows the query of [rs[i]] and the
    messages of [rs[i]] one list item each, in order, each item with the
    class of its message.  When some query or message holds markup, the
    children of the card container are for the parser to decide. *)
Theorem renderStatic_positional (s : Summary) (rs : list Item) (p : Page) :
  let p' := with_validationOutput (Rendered (renderStatic s rs)) p in
  (markupFreeResults rs = true ->
   cardMessages p' = validations <$> rs /\
   cardIndexes p' = seq 0 (length rs) /\
   card_query <$> cardsOf p' = query <$> rs /\
   cardClasses p' = (fun item => cls <$> validations item) <$> rs) /\
  (markupFreeResults rs = false ->
   card_container (renderStatic s rs) = ParserDecides rs).
Proof.
  unfold cardMessages, cardIndexes, cardClasses, cardsOf. simpl. split.
  - intros Hfree.
    destruct (renderCards_markupFree 0 rs Hfree)
      as (cards & -> & Ht & Hi & Hq & Hc). done.
  - intros Hmarkup. destruct (renderCards 0 rs) as [cards|] eqn:Hcards; [|done].
    apply renderCards_Some in Hcards. congruence.
Qed.

Lemma renderStatic_positional_witness :
  markupFreeResults
    [ {| query := "SELECT 1"; validations := ["❌ syntax error"; "✅ ok"] |} ] = true /\
  markupFreeResults
    [ {| query := "SELECT a FROM t WHERE a<b"; validations := ["✅ ok"] |} ] = false /\
  cardMessages
    (with_validationOutput
       (Rendered (renderStatic {| total := 1; passed := 0; failed := 1 |}
          [ {| query := "SELECT 1";
               validations := ["❌ syntax error"; "✅ ok"] |} ])) pageLoaded) =
    [["❌ syntax error"; "✅ ok"]] /\
  card_container
    (renderStatic {| total := 1; passed := 1; failed := 0 |}
       [ {| query := "SELECT a FROM t WHERE a<b"; validations := ["✅ ok"] |} ]) =
    ParserDecides
      [ {| query := "SELECT a FROM t WHERE a<b"; validations := ["✅ ok"] |} ].
Proof.
  split; [reflexivity|]. split; [reflexivity|]. split.
  - exact (proj1 (proj1 (renderStatic_positional
      {| total := 1; passed := 0; failed := 1 |}
      [ {| query := "SELECT 1"; validations := ["❌ syntax error"; "✅ ok"] |} ]
      pageLoaded) eq_refl)).
  - exact (proj2 (renderStatic_positional
      {| total := 1; passed := 1; failed := 0 |}
      [ {| query := "SELECT a FROM t WHERE a<b"; validations := ["✅ ok"] |} ]
      pageLoaded) eq_refl).
Defined.

(** ** More on patching *)

Lemma withAppended_app (a b : list string) (card : Card) :
  withAppended b (withAppended a card) = withAppended (a ++ b) card.
Proof.
  unfold withAppended. simpl. by rewrite fmap_app, app_assoc.
Qed.

Lemma applyPerQueryInsights_lookup (aiResults : list Item) (cards : list Card)
    (i : nat) :
  applyPerQueryInsights aiResults cards !! i =
  withAppended (aiMessagesAt aiResults i) <$> cards !! i.
Proof.
  unfold applyPerQueryInsights.
  rewrite forEachResult_lookup, decide_True by lia. by rewrite Nat.sub_0_r.
Qed.

(** X6: an AI response none of whose results holds an AI-tagged message
    leaves every card exactly as it is. *)
Theorem applyPerQueryInsights_untagged (aiResults : list Item) (cards : list Card) :
  Forall (fun item => aiMessagesOf item = []) aiResults ->
  applyPerQueryInsights aiResults cards = cards.
Proof.
  intros Hnone. apply list_eq. intros i.
  rewrite applyPerQueryInsights_lookup.
  assert (aiMessagesAt aiResults i = []) as ->.
  { unfold aiMessagesAt. destruct (aiResults !! i) as [item|] eqn:Hi; [|done].
    by apply (Forall_lookup_1 _ _ _ _ Hnone Hi). }
  destruct (cards !! i); simpl; [|done]. by rewrite withAppended_nil.
Qed.

Lemma applyPerQueryInsights_untagged_witness :
  Forall (fun item => aiMessagesOf item = [])
    [ {| query := "SELECT 1"; validations := ["❌ syntax error"] |} ] /\
  cardMessages pageRendered = [["❌ syntax error"]] /\
  applyPerQueryInsights
    [ {| query := "SELECT 1"; validations := ["❌ syntax error"] |} ]
    (cardsOf pageRendered) = cardsOf pageRendered.
Proof.
  assert (Forall (fun item => aiMessagesOf item = [])
    [ {| query := "SELECT 1"; validations := ["❌ syntax error"] |} ]) as H
    by (repeat constructor).
  split; [exact H|]. split; [reflexivity|].
  exact (applyPerQueryInsights_untagged _ _ H).
Defined.

(** X7: patching twice appends twice: after the patch for [a] and then the
    patch for [b], a card at index [i] holds its own items, then one
    [ai-msg] item for each AI-tagged message of [a[i]], then one for each
    AI-tagged message of [b[i]]; an index with no card gets nothing.  A
    second AI response is never merged with the first: as soon as [a[i]]
    holds an AI-tagged message for a card that exists, applying the same
    response again changes the cards again. *)
Theorem applyPerQueryInsights_twice (a b : list Item) (cards : list Card) (i : nat) :
  (forall card, cards !! i = Some card ->
     exists keptA keptB,
       onlyTagged (validationsAt a i) keptA /\
       onlyTagged (validationsAt b i) keptB /\
       applyPerQueryInsights b (applyPerQueryInsights a cards) !! i =
       Some {| data_index := data_index card;
               card_query := card_query card;
               validation_list :=
                 (validation_list card ++ (aiItem <$> keptA)
                    ++ (aiItem <$> keptB))%list |}) /\
  (cards !! i = None ->
     applyPerQueryInsights b (applyPerQueryInsights a cards) !! i = None) /\
  (forall card v, cards !! i = Some card ->
     v ∈ validationsAt a i -> aiTagged v ->
     applyPerQueryInsights a (applyPerQueryInsights a cards) <>
     applyPerQueryInsights a cards).
Proof.
  split; [|split].
  - intros card Hcard.
    exists (aiMessagesAt a i), (aiMessagesAt b i).
    split; [apply aiMessagesAt_onlyTagged|].
    split; [apply aiMessagesAt_onlyTagged|].
    rewrite !applyPerQueryInsights_lookup, Hcard. simpl.
    rewrite withAppended_app, withAppended_aiItem. by rewrite fmap_app.
  - intros Hnone. by rewrite !applyPerQueryInsights_lookup, Hnone.
  - intros card v Hcard Hin Hv Heq.
    pose proof (onlyTagged_elem _ _ _ (aiMessagesAt_onlyTagged a i) Hin Hv)
      as Hkept.
    apply (f_equal (fun cs => validation_list <$> cs !! i)) in Heq.
    rewrite !applyPerQueryInsights_lookup, Hcard in Heq. simpl in Heq.
    injection Heq as Heq. apply (f_equal length) in Heq.
    rewrite !length_app, !length_fmap in Heq.
    destruct (aiMessagesAt a i) as [|msg msgs]; [by apply elem_of_nil in Hkept|].
    simpl in Heq. lia.
Qed.

Lemma applyPerQueryInsights_twice_witness :
  let card := {| data_index := 0; card_query := "SELECT 1";
                 validation_list :=
                   [ {| className := "error";
                        li_content := InnerHTML "❌ syntax error";
                        li_opacity := None; li_transition := None |} ] |} in
  let item := {| query := "SELECT 1";
                 validations := ["🧠 Add an index"; "✅ ok"] |} in
  [card] !! 0 = Some card /\
  "🧠 Add an index" ∈ validationsAt [item] 0 /\
  aiTagged "🧠 Add an index" /\
  (itemTexts <$> applyPerQueryInsights [item] [card] !! 0) =
    Some ["❌ syntax error"; "🧠 Add an index"] /\
  (itemTexts
     <$> applyPerQueryInsights [item] (applyPerQueryInsights [item] [card]) !! 0) =
    Some ["❌ syntax error"; "🧠 Add an index"; "🧠 Add an index"] /\
  applyPerQueryInsights [item] (applyPerQueryInsights [item] [card]) <>
    applyPerQueryInsights [item] [card].
Proof.
  intros card item.
  assert ("🧠 Add an index" ∈ validationsAt [item] 0) as Hin by constructor.
  assert (aiTagged "🧠 Add an index") as Hv by (by exists " Add an index").
  split; [reflexivity|]. split; [exact Hin|]. split; [exact Hv|].
  split; [reflexivity|].
  destruct (applyPerQueryInsights_twice [item] [item] [card] 0)
    as (Htwice & _ & Hagain).
  split.
  - destruct (Htwice card eq_refl) as (keptA & keptB & HA & HB & ->).
    assert (onlyTagged (validationsAt [item] 0) ["🧠 Add an index"]) as Hkept.
    { apply onlyTagged_keep; [done|].
      apply onlyTagged_skip; [by intros [rest [=]]|]. constructor. }
    rewrite (onlyTagged_inj _ _ _ HA Hkept), (onlyTagged_inj _ _ _ HB Hkept).
    reflexivity.
  - exact (Hagain card _ eq_refl Hin Hv).
Defined.


(** X8: patching never changes which query a card shows nor its
    [data-index], whatever the AI response holds. *)
Theorem applyPerQueryInsights_keeps_identity (aiResults : list Item)
    (cards : list Card) :
  data_index <$> applyPerQueryInsights aiResults cards = data_index <$> cards /\
  card_query <$> applyPerQueryInsights aiResults cards = card_query <$> cards.
Proof.
  split; apply list_eq; intros i;
    rewrite !list_lookup_fmap, applyPerQueryInsights_lookup;
    by destruct (cards !! i).
Qed.



(** ** The AI callbacks on pages and responses they do not expect *)




(** X11: an AI response that decodes without error but has no [summary]:
    the placeholder is hidden, the callback raises before anything is
    injected, and the catch empties the placeholder; the summary container,
    the static summary and the cards are untouched and the promise ends
    fulfilled. *)
Theorem onAISettled_missing_summary (browser : Browser) (p : Page) (r : Report) (aiData : AIResponse) :
  validationOutput p = Rendered r ->
  truthy (ai_error aiData) = None -> ai_data_summary aiData = None ->
  run (onAISettled browser (AIDecoded aiData)) p =
  (Normal (),
   {| page := with_validationOutput
        (Rendered
           (with_loading
              (fun _ => {| loading_display := Some "none";
                           loading_children := LoadingText "" |}) r)) p;
      trace := [Write "ai-loading-container" "style.display";
                ConsoleError;
                Write "ai-loading-container" "innerText"] |}).
Proof.
  intros Hp Herr Hs. unfold onAISettled, onAIData, patchCards, onAIError. js.
  rewrite Herr. simpl. rewrite Hp. simpl. by rewrite Hs.
Qed.

Lemma onAISettled_missing_summary_witness :
  validationOutput pageRendered =
    Rendered (renderStatic {| total := 1; passed := 0; failed := 1 |}
                [ {| query := "SELECT 1"; validations := ["❌ syntax error"] |} ]) /\
  placeholderText
    (pageAfter (onAISettled lenientBrowser (AIDecoded {| ai_error := None;
                                          ai_data_summary := None;
                                          ai_data_results := None |}))
       pageRendered) = Some "".
Proof.
  split; [reflexivity|]. unfold pageAfter.
  rewrite (onAISettled_missing_summary lenientBrowser pageRendered _
             {| ai_error := None; ai_data_summary := None;
                ai_data_results := None |} eq_refl eq_refl eq_refl).
  reflexivity.
Defined.





(** ** The static phase on inputs at its edges *)

Lemma submitAndSettle_sent_effects (form : FormSnapshot) (outcome : StaticOutcome)
    (p0 : Page) :
  lastFingerprint p0 <> Some (currentFingerprint form) ->
  effectsOf (submitAndSettle form outcome) p0 =
  (effectsOf (onSubmit form) p0 ++
   effectsOf (onStaticSettled
                {| suspendedFingerprint := currentFingerprint form;
                   formData := form |} outcome) (validating p0))%list.
Proof.
  intros H. unfold effectsOf, submitAndSettle, run, onSubmit, onStaticSettled.
  js. rewrite bool_decide_false by done. simpl.
  destruct outcome as [| |data]; simpl; [done..|].
  destruct (truthy (error data)); simpl; [done|].
  destruct (summary data); simpl; [|done].
  destruct (results data); simpl; [|done].
  by destruct (truthy (pdf_url data)).
Qed.

Lemma submitAndSettle_blocked_run (form : FormSnapshot) (outcome : StaticOutcome)
    (p0 : Page) :
  lastFingerprint p0 = Some (currentFingerprint form) ->
  pageAfter (submitAndSettle form outcome) p0 = pageAfter (onSubmit form) p0 /\
  effectsOf (submitAndSettle form outcome) p0 = effectsOf (onSubmit form) p0.
Proof.
  intros H. unfold pageAfter, effectsOf, submitAndSettle, run, onSubmit.
  js. rewrite H. by rewrite bool_decide_true.
Qed.

(** X14: a response that decodes without error but lacks [summary] or
    [results] is committed before the render raises: the page shows the
    generic error, the download control is disarmed, no AI request is
    issued, and yet the same form submitted again is stopped by the guard. *)
Theorem static_missing_fields_commits (form : FormSnapshot) (p0 : Page)
    (data : ValidationResponse) :
  lastFingerprint p0 <> Some (currentFingerprint form) ->
  truthy (error data) = None ->
  summary data = None \/ results data = None ->
  let p2 := pageAfter (submitAndSettle form (Decoded data)) p0 in
  validationOutput p2 = GENERIC_ERROR /\
  lastFingerprint p2 = Some (currentFingerprint form) /\
  topDownloadBtn p2 = DISARMED /\
  fetchesOf (effectsOf (submitAndSettle form (Decoded data)) p0) =
    [("/validate", form)] /\
  resultOf (onSubmit form) p2 = Normal None.
Proof.
  intros Hsent Herr Hshape p2.
  assert (p2 = with_validationOutput GENERIC_ERROR
                 (with_lastFingerprint (Some (currentFingerprint form))
                    (validating p0))) as ->.
  { subst p2. rewrite submitAndSettle_sent by done. unfold pageAfter.
    by rewrite onStaticSettled_render_raises. }
  split; [done|]. split; [done|]. split; [done|]. split.
  - rewrite submitAndSettle_sent_effects by done. unfold effectsOf.
    rewrite onSubmit_sent by done.
    by rewrite onStaticSettled_render_raises.
  - unfold resultOf. by rewrite onSubmit_blocked.
Qed.

Lemma static_missing_fields_commits_witness :
  lastFingerprint pageLoaded <> Some (currentFingerprint formScenario) /\
  resultOf (onSubmit formScenario)
    (pageAfter (submitAndSettle formScenario
       (Decoded {| error := None; summary := None; results := None;
                   pdf_url := None |})) pageLoaded) = Normal None.
Proof.
  assert (lastFingerprint pageLoaded <> Some (currentFingerprint formScenario))
    as Hsent by discriminate.
  split; [exact Hsent|].
  apply (static_missing_fields_commits formScenario pageLoaded
    {| error := None; summary := None; results := None; pdf_url := None |}
    Hsent eq_refl (or_introl eq_refl)).
Defined.

(** X15: an empty string counts as absent: a response whose [error] is the
    empty string is handled exactly as if it had no [error], and one whose
    [pdf_url] is the empty string exactly as if it had no [pdf_url] (the
    download control is not armed). *)
Theorem empty_string_is_absent (k : Suspended) (data : ValidationResponse) (p : Page) :
  (error data = Some "" ->
   run (onStaticSettled k (Decoded data)) p =
   run (onStaticSettled k (Decoded (withoutError data))) p) /\
  (pdf_url data = Some "" ->
   run (onStaticSettled k (Decoded data)) p =
   run (onStaticSettled k (Decoded (withoutPdfUrl data))) p).
Proof.
  split; intros H; unfold onStaticSettled; js; by rewrite H.
Qed.

Lemma empty_string_is_absent_witness :
  let data := {| error := Some ""; summary := summary responseScenario;
                 results := results responseScenario; pdf_url := Some "" |} in
  error data = Some "" /\ pdf_url data = Some "" /\
  topDownloadBtn (pageAfter (submitAndSettle formScenario (Decoded data)) pageLoaded)
    = DISARMED /\
  lastFingerprint (pageAfter (submitAndSettle formScenario (Decoded data)) pageLoaded)
    = Some (currentFingerprint formScenario).
Proof.
  intros data. split; [reflexivity|]. split; [reflexivity|].
  pose proof (proj1 (empty_string_is_absent
    {| suspendedFingerprint := currentFingerprint formScenario;
       formData := formScenario |} data (validating pageLoaded)) eq_refl) as H.
  assert (lastFingerprint pageLoaded <> Some (currentFingerprint formScenario))
    as Hsent by discriminate.
  rewrite (submitAndSettle_sent formScenario (Decoded data) pageLoaded Hsent).
  unfold pageAfter. rewrite H. split; reflexivity.
Defined.

(** X16: the [input] and [change] listeners hide the duplicate warning and
    touch nothing else: its text stays, and so does the committed
    fingerprint, so the same form submitted again is stopped again and the
    page is the one the first stop left. *)
Theorem input_hides_warning_only (form : FormSnapshot) (p : Page) :
  lastFingerprint p = Some (currentFingerprint form) ->
  let p1 := pageAfter (onSubmit form) p in
  let p2 := pageAfter onInput p1 in
  duplicateWarning p2 =
    {| warning_display := "none"; warning_innerText := DUPLICATE_MESSAGE |} /\
  lastFingerprint p2 = lastFingerprint p /\
  validationOutput p2 = validationOutput p /\
  topDownloadBtn p2 = topDownloadBtn p /\
  resultOf (onSubmit form) p2 = Normal None /\
  pageAfter (onSubmit form) p2 = p1.
Proof.
  intros H p1 p2.
  assert (p1 = with_duplicateWarning (fun _ => WARNING_SHOWN) p) as Hp1.
  { subst p1. unfold pageAfter. by rewrite onSubmit_blocked. }
  assert (p2 = with_duplicateWarning (with_warning_display "none") p1) as Hp2
    by done.
  rewrite Hp2, Hp1. do 4 (split; [done|]).
  unfold resultOf, pageAfter. by rewrite onSubmit_blocked.
Qed.

Lemma input_hides_warning_only_witness :
  lastFingerprint pageRendered = Some (currentFingerprint formScenario) /\
  warning_innerText
    (duplicateWarning
       (pageAfter onInput (pageAfter (onSubmit formScenario) pageRendered)))
    = DUPLICATE_MESSAGE.
Proof.
  split; [reflexivity|].
  destruct (input_hides_warning_only formScenario pageRendered eq_refl) as [H _].
  rewrite H. reflexivity.
Defined.

(** X17: the guard compares with the committed fingerprint only.  While the
    first request is still pending nothing is committed, so the same form
    submitted twice in a row is sent twice and two handlers are suspended. *)
Theorem guard_open_while_pending (browser : Browser) (form : FormSnapshot) (p : Page) :
  lastFingerprint p <> Some (currentFingerprint form) ->
  let k := {| suspendedFingerprint := currentFingerprint form;
              formData := form |} in
  dispatchAll browser (loaded p) [Submitted form; Submitted form] =
    Some {| current := validating p; suspended := [k; k]; aiPending := [] |} /\
  fetchesOf (effectsOf (onSubmit form) (pageAfter (onSubmit form) p)) =
    [("/validate", form)].
Proof.
  intros H k.
  assert (pageAfter (onSubmit form) p = validating p) as Hp
    by (unfold pageAfter; by rewrite onSubmit_sent).
  assert (lastFingerprint (validating p) <> Some (currentFingerprint form))
    as H' by done.
  split.
  - simpl. unfold pageAfter, resultOf.
    rewrite (onSubmit_sent p form H). simpl.
    by rewrite (onSubmit_sent (validating p) form H').
  - rewrite Hp. unfold effectsOf. by rewrite onSubmit_sent.
Qed.

Lemma guard_open_while_pending_witness :
  lastFingerprint pageLoaded <> Some (currentFingerprint formScenario) /\
  (length ∘ suspended <$>
     dispatchAll lenientBrowser (loaded pageLoaded) [Submitted formScenario; Submitted formScenario])
    = Some 2.
Proof.
  assert (lastFingerprint pageLoaded <> Some (currentFingerprint formScenario))
    as Hsent by discriminate.
  split; [exact Hsent|].
  destruct (guard_open_while_pending lenientBrowser formScenario pageLoaded Hsent) as [H _].
  rewrite H. reflexivity.
Defined.

(** X18: the part of the submit handler before its [await] never raises
    and never assigns the fingerprint; it returns at the guard exactly when
    the fingerprint of the form is the committed one, and otherwise issues
    exactly one request, to [/validate], with the form as its body. *)
Theorem onSubmit_guard (form : FormSnapshot) (p : Page) :
  lastFingerprint (pageAfter (onSubmit form) p) = lastFingerprint p /\
  (exists k, resultOf (onSubmit form) p = Normal k /\
     (k = None <-> lastFingerprint p = Some (currentFingerprint form))) /\
  fetchesOf (effectsOf (onSubmit form) p) =
    if decide (lastFingerprint p = Some (currentFingerprint form))
    then [] else [("/validate", form)].
Proof.
  unfold pageAfter, resultOf, effectsOf. case_decide as H.
  - rewrite onSubmit_blocked by done. split; [done|]. split; [|done].
    by exists None.
  - rewrite onSubmit_sent by done. split; [done|]. split; [|done].
    eexists. split; [done|]. by split.
Qed.

(** X19: the requests of one submission.  A form that passes the guard is
    posted to [/validate]; the same form, and nothing else, is posted to
    [/analyze_ai] exactly when the response decodes without error and has
    its summary and its results; a form stopped by the guard issues no
    request at all. *)
Theorem fetches_of_submission (form : FormSnapshot) (outcome : StaticOutcome)
    (p0 : Page) :
  fetchesOf (effectsOf (submitAndSettle form outcome) p0) =
  if decide (lastFingerprint p0 = Some (currentFingerprint form)) then []
  else ("/validate", form) ::
       match outcome with
       | Decoded data =>
           match truthy (error data), summary data, results data with
           | None, Some _, Some _ => [("/analyze_ai", form)]
           | _, _, _ => []
           end
       | _ => []
       end.
Proof.
  case_decide as H.
  - destruct (submitAndSettle_blocked_run form outcome p0 H) as [_ ->].
    unfold effectsOf. by rewrite onSubmit_blocked.
  - rewrite submitAndSettle_sent_effects by done. unfold effectsOf at 1.
    rewrite onSubmit_sent by done. unfold fetchesOf. rewrite omap_app. simpl.
    f_equal. unfold effectsOf.
    destruct outcome as [| |data];
      [by rewrite onStaticSettled_raised by (left + right; done)..|].
    destruct (truthy (error data)) as [message|] eqn:Herr.
    { by rewrite (onStaticSettled_error _ _ data message). }
    destruct (summary data) as [s|] eqn:Hs; cycle 1.
    { rewrite onStaticSettled_render_raises by eauto. done. }
    destruct (results data) as [rs|] eqn:Hrs; cycle 1.
    { rewrite onStaticSettled_render_raises by eauto. done. }
    rewrite (onStaticSettled_rendered _ _ data s rs) by done. simpl.
    by destruct (truthy (pdf_url data)).
Qed.

(** X20: a submission answered with an error: the message is interpolated
    into a paragraph of class [error] that is assigned through [innerHTML];
    the warning is cleared, the results panel is shown, the download control
    is disarmed and the fingerprint is the one from before the submission.
    The paragraph shows the message as it came when the message holds no
    markup; when it holds markup, what the paragraph shows is for the parser
    to decide. *)
Theorem error_response_page (form : FormSnapshot) (p0 : Page)
    (data : ValidationResponse) (message : string) :
  lastFingerprint p0 <> Some (currentFingerprint form) ->
  truthy (error data) = Some message ->
  let p2 := pageAfter (submitAndSettle form (Decoded data)) p0 in
  p2 =
  {| lastFingerprint := lastFingerprint p0;
     duplicateWarning := WARNING_CLEARED;
     results_display := "block";
     validationOutput := Paragraph (Some "error") message;
     topDownloadBtn := DISARMED |} /\
  error data = Some message /\
  (markupFree message = true ->
   paragraphText (validationOutput p2) = Some message) /\
  (markupFree message = false ->
   paragraphText (validationOutput p2) = None).
Proof.
  intros Hsent Herr p2.
  assert (p2 =
    {| lastFingerprint := lastFingerprint p0;
       duplicateWarning := WARNING_CLEARED;
       results_display := "block";
       validationOutput := Paragraph (Some "error") message;
       topDownloadBtn := DISARMED |}) as ->.
  { subst p2. rewrite submitAndSettle_sent by done. unfold pageAfter.
    by rewrite (onStaticSettled_error _ _ data message). }
  split; [done|]. split; [by apply truthy_Some|].
  simpl. split; by intros ->.
Qed.

Lemma error_response_page_witness :
  lastFingerprint pageLoaded <> Some (currentFingerprint formScenario) /\
  paragraphText (validationOutput
    (pageAfter (submitAndSettle formScenario
       (Decoded {| error := Some "empty file"; summary := None;
                   results := None; pdf_url := None |})) pageLoaded)) =
    Some "empty file" /\
  paragraphText (validationOutput
    (pageAfter (submitAndSettle formScenario
       (Decoded {| error := Some "near <b>: syntax error"; summary := None;
                   results := None; pdf_url := None |})) pageLoaded)) = None.
Proof.
  assert (lastFingerprint pageLoaded <> Some (currentFingerprint formScenario))
    as Hsent by discriminate.
  split; [exact Hsent|]. split.
  - destruct (error_response_page formScenario pageLoaded
      {| error := Some "empty file"; summary := None; results := None;
         pdf_url := None |} "empty file" Hsent eq_refl) as (_ & _ & H & _).
    exact (H eq_refl).
  - destruct (error_response_page formScenario pageLoaded
      {| error := Some "near <b>: syntax error"; summary := None;
         results := None; pdf_url := None |} "near <b>: syntax error"
      Hsent eq_refl) as (_ & _ & _ & H).
    exact (H eq_refl).
Defined.

(** ** The AI summary blocks *)

(** X21: nothing is injected into the AI summary container exactly when
    the response has no (or an empty) [ai_summary] and no (or an empty list
    of) [ai_insights]; a heading and a rule are never injected without at
    least one insight between them. *)
Theorem aiHtml_empty (s : AISummary) :
  (aiHtml s = [] <->
   truthy (ai_summary s) = None /\
   (ai_insights s = None \/ ai_insights s = Some [])) /\
  (AiSectionTitle ∈ aiHtml s <-> AiRule ∈ aiHtml s) /\
  (AiRule ∈ aiHtml s <-> exists i insights, ai_insights s = Some (i :: insights)).
Proof.
  unfold aiHtml.
  destruct (truthy (ai_summary s)) as [text|];
    destruct (ai_insights s) as [[|i insights]|]; simpl;
    repeat split;
    try discriminate;
    try (intros [? [?|?]]; discriminate);
    try (intros (? & ? & ?); discriminate);
    try (intros H; repeat (apply elem_of_cons in H as [H|H]; [discriminate|]);
         by apply elem_of_nil in H);
    try (intros _; rewrite ?elem_of_cons, ?elem_of_app, ?elem_of_cons; auto 10; fail);
    try (intros _; eauto; fail);
    auto.
Qed.

(** ** Invariants of the event loop *)

Lemma onSubmit_lastFingerprint (form : FormSnapshot) (p : Page) :
  lastFingerprint (pageAfter (onSubmit form) p) = lastFingerprint p.
Proof.
  unfold pageAfter.
  destruct (decide (lastFingerprint p = Some (currentFingerprint form))).
  - by rewrite onSubmit_blocked.
  - by rewrite onSubmit_sent.
Qed.

Lemma onSubmit_suspended (form : FormSnapshot) (p : Page) (k : Suspended) :
  resultOf (onSubmit form) p = Normal (Some k) ->
  suspendedFingerprint k = currentFingerprint form /\ formData k = form.
Proof.
  unfold resultOf.
  destruct (decide (lastFingerprint p = Some (currentFingerprint form))).
  - by rewrite onSubmit_blocked.
  - rewrite onSubmit_sent by done. simpl. by intros [= <-].
Qed.

(** One task changes the fingerprint only by resuming a suspended handler,
    to the fingerprint that handler computed. *)
Lemma dispatch_lastFingerprint (browser : Browser) (l l' : Loop) (e : Event) :
  dispatch browser l e = Some l' ->
  lastFingerprint (current l') = lastFingerprint (current l) \/
  exists i outcome k,
    e = StaticSettled i outcome /\ suspended l !! i = Some k /\
    lastFingerprint (current l') = Some (suspendedFingerprint k).
Proof.
  destruct e as [|form|i outcome|i outcome]; simpl.
  - intros [= <-]. by left.
  - intros [= <-]. left. apply onSubmit_lastFingerprint.
  - destruct (suspended l !! i) as [k|] eqn:Hk; simpl; [|done].
    intros [= <-]. simpl. rewrite onStaticSettled_lastFingerprint.
    destruct outcome as [| |data]; [by left..|].
    destruct (truthy (error data)); [by left|]. right. by exists i, (Decoded data), k.
  - destruct (aiPending l !! i); simpl; [|done].
    intros [= <-]. left. apply onAISettled_button.
Qed.

(** A handler is suspended only by a submit, with the fingerprint of the
    submitted form. *)
Lemma dispatch_suspended (browser : Browser) (l l' : Loop) (e : Event) (k : Suspended) :
  dispatch browser l e = Some l' -> k ∈ suspended l' ->
  k ∈ suspended l \/
  exists form, e = Submitted form /\
    suspendedFingerprint k = currentFingerprint form.
Proof.
  destruct e as [|form|i outcome|i outcome]; simpl.
  - intros [= <-]. by left.
  - intros [= <-]. simpl. rewrite elem_of_app. intros [H|H]; [by left|].
    destruct (resultOf (onSubmit form) (current l)) as [[k'|]|] eqn:Hr;
      try by apply elem_of_nil in H.
    apply elem_of_cons in H as [->|H]; [|by apply elem_of_nil in H].
    right. exists form. split; [done|]. by apply (onSubmit_suspended form (current l)).
  - destruct (suspended l !! i); simpl; [|done].
    intros [= <-]. simpl. intros H. left. by eapply list_elem_of_delete_inv.
  - destruct (aiPending l !! i); simpl; [|done].
    intros [= <-]. by left.
Qed.

Lemma dispatchAll_lastFingerprint (browser : Browser) (events : list Event) (l l' : Loop) (fp : string) :
  dispatchAll browser l events = Some l' ->
  (lastFingerprint (current l') = Some fp ->
   lastFingerprint (current l) = Some fp \/
   (exists k, k ∈ suspended l /\ suspendedFingerprint k = fp) \/
   exists form, Submitted form ∈ events /\ currentFingerprint form = fp) /\
  (forall k, k ∈ suspended l' -> suspendedFingerprint k = fp ->
   (exists k, k ∈ suspended l /\ suspendedFingerprint k = fp) \/
   exists form, Submitted form ∈ events /\ currentFingerprint form = fp).
Proof.
  revert l. induction events as [|e events IH]; intros l; simpl.
  - intros [= <-]. split; [by left|]. intros k Hk Hfp. left. by exists k.
  - destruct (dispatch browser l e) as [l1|] eqn:Hstep; simpl; [|done].
    intros Hrun. destruct (IH l1 Hrun) as [IHfp IHk].
    assert (forall k, k ∈ suspended l1 -> suspendedFingerprint k = fp ->
      (exists k, k ∈ suspended l /\ suspendedFingerprint k = fp) \/
      exists form, Submitted form ∈ e :: events /\ currentFingerprint form = fp)
      as Hback.
    { intros k Hk Hfp.
      destruct (dispatch_suspended browser l l1 e k Hstep Hk) as [H | (form & -> & H)].
      - left. by exists k.
      - right. exists form. split; [constructor|congruence]. }
    assert (forall form, Submitted form ∈ events -> Submitted form ∈ e :: events)
      as Hlater by (intros; by constructor).
    split.
    + intros Hfp.
      destruct (IHfp Hfp) as [H1 | [(k & Hk & Hkfp) | (form & Hin & Hform)]].
      * destruct (dispatch_lastFingerprint browser l l1 e Hstep)
          as [Heq | (i & outcome & k & -> & Hk & Heq)].
        -- left. congruence.
        -- right. left. exists k. split; [by eapply list_elem_of_lookup_2|].
           congruence.
      * right. by apply (Hback k).
      * right. right. exists form. auto.
    + intros k Hk Hkfp.
      destruct (IHk k Hk Hkfp) as [(k1 & Hk1 & Hk1fp) | (form & Hin & Hform)].
      * by apply (Hback k1).
      * right. exists form. auto.
Qed.

(** X22: however the tasks interleave from a page with nothing pending, a
    committed fingerprint is the one the page started with or the
    fingerprint of a form that was submitted during the run. *)
Theorem committed_fingerprint_was_submitted (browser : Browser) (events : list Event) (p : Page)
    (l' : Loop) (fp : string) :
  dispatchAll browser (loaded p) events = Some l' ->
  lastFingerprint (current l') = Some fp ->
  lastFingerprint p = Some fp \/
  exists form, Submitted form ∈ events /\ currentFingerprint form = fp.
Proof.
  intros Hrun Hfp.
  destruct (dispatchAll_lastFingerprint browser events (loaded p) l' fp Hrun) as [H _].
  destruct (H Hfp) as [H1 | [(k & Hk & _) | H3]]; [by left| |by right].
  by apply elem_of_nil in Hk.
Qed.

Lemma committed_fingerprint_was_submitted_witness :
  dispatchAll lenientBrowser (loaded pageLoaded)
    [Submitted formScenario; StaticSettled 0 (Decoded responseScenario)] =
    Some {| current := pageRendered; suspended := []; aiPending := [formScenario] |} /\
  lastFingerprint pageRendered = Some (currentFingerprint formScenario) /\
  (lastFingerprint pageLoaded = Some (currentFingerprint formScenario) \/
   exists form,
     Submitted form ∈ [Submitted formScenario;
                       StaticSettled 0 (Decoded responseScenario)] /\
     currentFingerprint form = currentFingerprint formScenario).
Proof.
  assert (dispatchAll lenientBrowser (loaded pageLoaded)
    [Submitted formScenario; StaticSettled 0 (Decoded responseScenario)] =
    Some {| current := pageRendered; suspended := [];
            aiPending := [formScenario] |}) as Hrun by reflexivity.
  split; [exact Hrun|]. split; [reflexivity|].
  exact (committed_fingerprint_was_submitted lenientBrowser _ _ _ _ Hrun eq_refl).
Defined.

(** X23: no task resets the fingerprint: once one is committed, one is
    committed after every further run of the loop. *)
Theorem fingerprint_never_reset (browser : Browser) (events : list Event) (l l' : Loop) :
  dispatchAll browser l events = Some l' ->
  is_Some (lastFingerprint (current l)) ->
  is_Some (lastFingerprint (current l')).
Proof.
  revert l. induction events as [|e events IH]; intros l; simpl.
  - by intros [= <-].
  - destruct (dispatch browser l e) as [l1|] eqn:Hstep; simpl; [|done].
    intros Hrun Hsome. apply (IH l1 Hrun).
    destruct (dispatch_lastFingerprint browser l l1 e Hstep)
      as [-> | (_ & _ & k & _ & _ & ->)]; [done|by eexists].
Qed.

Lemma fingerprint_never_reset_witness :
  is_Some (lastFingerprint pageRendered) /\
  (is_Some ∘ lastFingerprint ∘ current <$>
     dispatchAll lenientBrowser (loaded pageRendered)
       [Submitted formRenamedFile; StaticSettled 0 JsonRejected; InputChanged])
  <> None.
Proof.
  assert (is_Some (lastFingerprint pageRendered)) as H by (by eexists).
  split; [exact H|].
  destruct (dispatchAll lenientBrowser (loaded pageRendered)
       [Submitted formRenamedFile; StaticSettled 0 JsonRejected; InputChanged])
    as [l'|] eqn:Hrun; [|discriminate Hrun].
  pose proof (fingerprint_never_reset lenientBrowser _ _ _ Hrun H). discriminate.
Defined.

(** ** What a settled request always leaves behind *)

(** X24: the resumed submit handler never raises and never leaves the
    "Validating" message on the page: whatever the outcome, the output then
    holds the error of the response, the generic error or the report. *)
Theorem onStaticSettled_replaces_validating (k : Suspended)
    (outcome : StaticOutcome) (p : Page) :
  resultOf (onStaticSettled k outcome) p = Normal () /\
  ((exists message, validationOutput (pageAfter (onStaticSettled k outcome) p) =
                      Paragraph (Some "error") message) \/
   exists s rs, validationOutput (pageAfter (onStaticSettled k outcome) p) =
                  Rendered (renderStatic s rs)).
Proof.
  unfold onStaticSettled. js.
  destruct outcome as [| |data]; simpl; [by eauto..|].
  destruct (truthy (error data)); simpl; [by eauto|].
  destruct (summary data); simpl; [|by eauto].
  destruct (results data); simpl; [|by eauto].
  destruct (truthy (pdf_url data)); simpl; eauto.
Qed.

(** X25: once the AI request has settled on a page that holds a report,
    the "AI is thinking" placeholder is gone on every path: it is hidden,
    or its children were replaced by the failure paragraph or by empty
    text. *)
Theorem onAISettled_removes_placeholder (browser : Browser) (outcome : AIOutcome) (p : Page) (r : Report) :
  validationOutput p = Rendered r ->
  exists r',
    validationOutput (pageAfter (onAISettled browser outcome) p) = Rendered r' /\
    (loading_display (ai_loading_container r') = Some "none" \/
     loading_children (ai_loading_container r') = LoadingText "" \/
     exists message,
       loading_children (ai_loading_container r') = RedParagraph message).
Proof.
  intros Hp. unfold onAISettled, onAIData, patchCards, onAIError. js.
  destruct outcome as [| |aiData]; simpl; rewrite ?Hp; simpl; [by eauto..|].
  destruct (truthy (ai_error aiData)); simpl; rewrite ?Hp; simpl; [by eauto 6|].
  destruct (ai_data_summary aiData); simpl; [|by eauto].
  destruct (ai_data_results aiData) as [rs|]; simpl; [|by eauto].
  destruct (card_container r) as [cards|srs]; simpl; [by eauto|].
  case_bool_decide; simpl; [by eauto|].
  destruct (patchRaises browser srs rs); simpl; by eauto.
Qed.

Lemma onAISettled_removes_placeholder_witness :
  validationOutput pageRendered =
    Rendered (renderStatic {| total := 1; passed := 0; failed := 1 |}
                [ {| query := "SELECT 1"; validations := ["❌ syntax error"] |} ]) /\
  placeholderText (pageAfter (onAISettled lenientBrowser AIJsonRejected) pageRendered)
    <> Some (loadingText Thinking).
Proof.
  split; [reflexivity|].
  destruct (onAISettled_removes_placeholder lenientBrowser AIJsonRejected pageRendered _ eq_refl)
    as (r' & Hr' & _).
  unfold placeholderText. rewrite Hr'. vm_compute in Hr'.
  injection Hr' as <-. discriminate.
Defined.

(** X26: submissions that overlap.  When a second form is submitted before
    the first response arrives, the first response, if it supplies a
    [pdf_url], arms the download control the second submission had
    disarmed; an error response to the second submission then shows its
    error and leaves the control bound to the url of the first. *)
Theorem overlapping_submissions_leave_stale_download (browser : Browser) (p : Page)
    (formA formB : FormSnapshot) (dataA dataB : ValidationResponse)
    (s : Summary) (rs : list Item) (url message : string) :
  lastFingerprint p <> Some (currentFingerprint formA) ->
  lastFingerprint p <> Some (currentFingerprint formB) ->
  truthy (error dataA) = None ->
  summary dataA = Some s -> results dataA = Some rs ->
  truthy (pdf_url dataA) = Some url ->
  truthy (error dataB) = Some message ->
  exists l,
    dispatchAll browser (loaded p)
      [Submitted formA; Submitted formB;
       StaticSettled 0 (Decoded dataA); StaticSettled 0 (Decoded dataB)] = Some l /\
    validationOutput (current l) = Paragraph (Some "error") message /\
    topDownloadBtn (current l) = ARMED url /\
    lastFingerprint (current l) = Some (currentFingerprint formA) /\
    suspended l = [] /\ aiPending l = [formA].
Proof.
  intros HA HB HerrA Hs Hrs Hurl HerrB.
  assert (lastFingerprint (validating p) <> Some (currentFingerprint formB))
    as HB' by done.
  eexists. split.
  - simpl. unfold pageAfter, resultOf, effectsOf.
    rewrite (onSubmit_sent p formA HA). simpl.
    rewrite (onSubmit_sent (validating p) formB HB'). simpl.
    rewrite (onStaticSettled_rendered _ _ dataA s rs HerrA Hs Hrs). simpl.
    rewrite (onStaticSettled_error _ _ dataB message HerrB). simpl.
    reflexivity.
  - simpl. by rewrite Hurl.
Qed.

Lemma overlapping_submissions_leave_stale_download_witness :
  lastFingerprint pageLoaded <> Some (currentFingerprint formScenario) /\
  lastFingerprint pageLoaded <> Some (currentFingerprint formRenamedFile) /\
  (topDownloadBtn ∘ current <$>
     dispatchAll lenientBrowser (loaded pageLoaded)
       [Submitted formScenario; Submitted formRenamedFile;
        StaticSettled 0 (Decoded responseScenario);
        StaticSettled 0 (Decoded {| error := Some "empty file"; summary := None;
                                    results := None; pdf_url := None |})])
    = Some (ARMED "/r/1.pdf").
Proof.
  assert (lastFingerprint pageLoaded <> Some (currentFingerprint formScenario))
    as HA by discriminate.
  assert (lastFingerprint pageLoaded <> Some (currentFingerprint formRenamedFile))
    as HB by discriminate.
  split; [exact HA|]. split; [exact HB|].
  destruct (overlapping_submissions_leave_stale_download lenientBrowser pageLoaded
    formScenario formRenamedFile responseScenario
    {| error := Some "empty file"; summary := None; results := None;
       pdf_url := None |}
    {| total := 1; passed := 0; failed := 1 |}
    [ {| query := "SELECT 1"; validations := ["❌ syntax error"] |} ]
    "/r/1.pdf" "empty file" HA HB eq_refl eq_refl eq_refl eq_refl eq_refl)
    as (l & Hrun & _ & Hbtn & _).
  rewrite Hrun. simpl. by rewrite Hbtn.
Defined.

(** ** Instances *)


Lemma aiHtml_empty_witness :
  truthy (ai_summary {| ai_summary := Some ""; ai_insights := Some [] |}) = None /\
  aiHtml {| ai_summary := Some ""; ai_insights := Some [] |} = [].
Proof.
  split; [reflexivity|].
  destruct (aiHtml_empty {| ai_summary := Some ""; ai_insights := Some [] |})
    as ([_ H] & _).
  apply H. split; [reflexivity|]. right. reflexivity.
Defined.

Lemma onSubmit_guard_witness :
  lastFingerprint pageRendered = Some (currentFingerprint formScenario) /\
  fetchesOf (effectsOf (onSubmit formScenario) pageRendered) = [].
Proof.
  split; [reflexivity|].
  destruct (onSubmit_guard formScenario pageRendered) as (_ & _ & H).
  rewrite H. reflexivity.
Defined.
